(** * Matrix Orbital GLK19264 frame buffer and keypad driver

    A shallow embedding of [matrixorbital.c]: the I2C command helpers, the
    bit reversal and the bitmap frame of [matrixorbitalfb_update_display],
    the frame buffer operations, the panel initialisation with the part of
    [matrixorbital_probe] around it, the teardown, and the keypad poll
    loop.

    The kernel services the driver calls (the I2C core, the allocator, the
    user copy, the generic drawing helpers, the input core) are not part of
    the driver.  What they answer is taken from an environment [env]; what
    the driver asks of them is appended to a trace of calls. *)

From Stdlib Require Import ZArith List Bool Lia.
Import ListNotations.
Local Open Scope Z_scope.

(** ** C integer types *)

Module CInt.

(** Conversion to an unsigned type of [w] bits. *)
Definition wrap (w x : Z) : Z := x mod 2 ^ w.

(** Conversion to a signed type of [w] bits (two's complement). *)
Definition swrap (w x : Z) : Z := (x + 2 ^ (w - 1)) mod 2 ^ w - 2 ^ (w - 1).

Definition u8 : Z -> Z := wrap 8.
Definition u32 : Z -> Z := wrap 32.
Definition int : Z -> Z := swrap 32.
(** [unsigned long] and [size_t] on an LP64 kernel. *)
Definition ulong : Z -> Z := wrap 64.
(** [loff_t] and, on LP64, [ssize_t]. *)
Definition s64 : Z -> Z := swrap 64.

Definition LLONG_MAX : Z := 2 ^ 63 - 1.

End CInt.
Import CInt.

(** ** Constants *)

Definition MATRIXORBITAL_POLL_KEY_PRESS : Z := 0x26.
Definition MATRIXORBITAL_READ_MODULE_TYPE : Z := 0x37.
Definition MATRIXORBITAL_AUTO_TX_KEY_PRESS_OFF : Z := 0x4F.
Definition MATRIXORBITAL_CLEAR_SCREEN : Z := 0x58.
Definition MATRIXORBITAL_DRAW_BITMAP_DIRECTLY : Z := 0x64.
Definition MATRIXORBITAL_TX_PROTOCOL_SELECT : Z := 0xA0.

(** Key codes of the kernel's [input-event-codes.h]; the driver names them
    and keeps them in a [u8]. *)
Definition KEY_RESERVED : Z := 0.
Definition KEY_ESC : Z := 1.
Definition KEY_BACKSPACE : Z := 14.
Definition KEY_ENTER : Z := 28.
Definition KEY_UP : Z := 103.
Definition KEY_LEFT : Z := 105.
Definition KEY_RIGHT : Z := 106.
Definition KEY_DOWN : Z := 108.

(** Error numbers of the kernel's [errno-base.h]. *)
Definition ENOMEM : Z := 12.
Definition EFAULT : Z := 14.
Definition EINVAL : Z := 22.

(** ** Bit reversal *)

(** [reverse_bits_in_byte]: the operands are promoted to [int], each
    assignment converts back to [unsigned char]. *)
Definition reverse_bits_in_byte (b : Z) : Z :=
  let b := u8 (Z.lor (Z.shiftr (Z.land b 0xF0) 4) (Z.shiftl (Z.land b 0x0F) 4)) in
  let b := u8 (Z.lor (Z.shiftr (Z.land b 0xCC) 2) (Z.shiftl (Z.land b 0x33) 2)) in
  let b := u8 (Z.lor (Z.shiftr (Z.land b 0xAA) 1) (Z.shiftl (Z.land b 0x55) 1)) in
  b.

(** The three stages of the transform, one at a time. *)
Definition swap_nibbles (b : Z) : Z :=
  u8 (Z.lor (Z.shiftr (Z.land b 0xF0) 4) (Z.shiftl (Z.land b 0x0F) 4)).
Definition swap_pairs (b : Z) : Z :=
  u8 (Z.lor (Z.shiftr (Z.land b 0xCC) 2) (Z.shiftl (Z.land b 0x33) 2)).
Definition swap_bits (b : Z) : Z :=
  u8 (Z.lor (Z.shiftr (Z.land b 0xAA) 1) (Z.shiftl (Z.land b 0x55) 1)).

(** All values of an [unsigned char]. *)
Definition all_bytes : list Z := map Z.of_nat (seq 0 256).

(** ** Calls, diagnostics and the environment *)

(** The texts the driver logs with [dev_err], [dev_info] and [printk],
    with the values they print. *)
Inductive message : Type :=
| MsgCouldntSend                  (* Couldn't send I2C command. *)
| MsgModuleType (ret : Z)         (* Module type 0x%02x *)
| MsgUnknownKeycode (code : Z)    (* Unknown keycode 0x%x *)
| MsgReportKey (keycode code : Z) (* Report key %d [0x%x] *)
| MsgCouldntAllocFb               (* Couldn't allocate framebuffer. *)
| MsgCouldntAllocVmem             (* Couldn't allocate graphical memory. *)
| MsgCouldntAllocDefio            (* Couldn't allocate deferred io. *)
| MsgCouldntRegisterFb            (* Couldn't register the framebuffer *)
| MsgNotEnoughMemory              (* Not enough memory *)
| MsgFailedRegisterInput          (* failed to register polled input device *)
| MsgRegistered (vmem_size : Z).  (* fb%d: %s framebuffer device registered ... *)

(** Kernel services of the bring-up path whose only trace is that they
    were called. *)
Inductive service : Type :=
| FramebufferAlloc
| GetFreePages
| DevmKzalloc
| FbDeferredIoInit
| I2cSetClientdata
| RegisterFramebuffer
| DevmInputAllocatePolledDevice
| InputRegisterPolledDevice
| InputFreePolledDevice
| FbDeferredIoCleanup
| FramebufferRelease
| InputUnregisterPolledDevice
| UnregisterFramebuffer
| FreePages (smem_len : Z).        (* __free_pages of get_order(smem_len) *)

(** What the driver asks of the kernel, in the order it asks. *)
Inductive call : Type :=
| I2cMasterSend (bytes : list Z)   (* the [len] bytes handed to the bus *)
| I2cMasterRecv (count : Z)
| Msleep (ms : Z)
| Log (m : message)
| InputReportKey (code value : Z)
| InputSync
| Kernel (s : service).

(** Arguments of the generic drawing helpers, as in [linux/fb.h]. *)
Record fb_fillrect : Type := {
  fr_dx : Z; fr_dy : Z; fr_width : Z; fr_height : Z; fr_color : Z; fr_rop : Z
}.
Record fb_copyarea : Type := {
  ca_dx : Z; ca_dy : Z; ca_width : Z; ca_height : Z; ca_sx : Z; ca_sy : Z
}.
Record fb_image : Type := {
  im_dx : Z; im_dy : Z; im_width : Z; im_height : Z;
  im_fg_color : Z; im_bg_color : Z; im_depth : Z; im_data : list Z
}.

(** What the kernel answers.  The [n]-th call of a service gets the
    [n]-th answer; the drawing helpers are functions on the screen
    memory. *)
Record env : Type := {
  i2c_send_ret : nat -> Z;          (* returned by i2c_master_send *)
  i2c_recv_ret : nat -> Z * Z;      (* i2c_master_recv: returned value, byte stored *)
  kzalloc_ok : nat -> bool;         (* kzalloc in the display update *)
  sys_fillrect : fb_fillrect -> list Z -> list Z;
  sys_copyarea : fb_copyarea -> list Z -> list Z;
  sys_imageblit : fb_image -> list Z -> list Z;
  framebuffer_alloc_ok : bool;
  get_free_pages_ok : bool;
  devm_kzalloc_ok : bool;
  register_framebuffer_ret : Z;
  input_allocate_ok : bool;
  input_register_ret : Z;
  HZ : Z;                           (* the kernel's timer frequency *)
  refreshrate : Z                   (* the module parameter, 5 when not given *)
}.

(** ** Driver state *)

Record world : Type := {
  par_width : Z;          (* par->width *)
  par_height : Z;         (* par->height *)
  smem_len : Z;           (* info->fix.smem_len *)
  screen_base : list Z;   (* the smem_len bytes at info->screen_base *)
  keybit : list Z;        (* keys declared to the input core *)
  defio_delay : Z;        (* info->fbdefio->delay, in jiffies *)
  overrun : bool;         (* a store went past the end of screen_base *)
  n_send : nat;           (* i2c_master_send calls so far *)
  n_recv : nat;           (* i2c_master_recv calls so far *)
  n_kzalloc : nat;        (* kzalloc calls so far *)
  trace : list call       (* calls so far, oldest first *)
}.

Definition set_trace (t : list call) (w : world) : world :=
  {| par_width := par_width w; par_height := par_height w;
     smem_len := smem_len w; screen_base := screen_base w;
     keybit := keybit w; defio_delay := defio_delay w; overrun := overrun w;
     n_send := n_send w; n_recv := n_recv w; n_kzalloc := n_kzalloc w;
     trace := t |}.

Definition set_screen (m : list Z) (w : world) : world :=
  {| par_width := par_width w; par_height := par_height w;
     smem_len := smem_len w; screen_base := m;
     keybit := keybit w; defio_delay := defio_delay w; overrun := overrun w;
     n_send := n_send w; n_recv := n_recv w; n_kzalloc := n_kzalloc w;
     trace := trace w |}.

Definition set_overrun (b : bool) (w : world) : world :=
  {| par_width := par_width w; par_height := par_height w;
     smem_len := smem_len w; screen_base := screen_base w;
     keybit := keybit w; defio_delay := defio_delay w; overrun := b;
     n_send := n_send w; n_recv := n_recv w; n_kzalloc := n_kzalloc w;
     trace := trace w |}.

Definition set_n_send (n : nat) (w : world) : world :=
  {| par_width := par_width w; par_height := par_height w;
     smem_len := smem_len w; screen_base := screen_base w;
     keybit := keybit w; defio_delay := defio_delay w; overrun := overrun w;
     n_send := n; n_recv := n_recv w; n_kzalloc := n_kzalloc w;
     trace := trace w |}.

Definition set_n_recv (n : nat) (w : world) : world :=
  {| par_width := par_width w; par_height := par_height w;
     smem_len := smem_len w; screen_base := screen_base w;
     keybit := keybit w; defio_delay := defio_delay w; overrun := overrun w;
     n_send := n_send w; n_recv := n; n_kzalloc := n_kzalloc w;
     trace := trace w |}.

Definition set_n_kzalloc (n : nat) (w : world) : world :=
  {| par_width := par_width w; par_height := par_height w;
     smem_len := smem_len w; screen_base := screen_base w;
     keybit := keybit w; defio_delay := defio_delay w; overrun := overrun w;
     n_send := n_send w; n_recv := n_recv w; n_kzalloc := n;
     trace := trace w |}.

(** The state before [matrixorbital_probe]. *)
Definition boot : world :=
  {| par_width := 0; par_height := 0; smem_len := 0; screen_base := [];
     keybit := []; defio_delay := 0; overrun := false;
     n_send := 0; n_recv := 0; n_kzalloc := 0; trace := [] |}.

(** ** State passing *)

Definition M (A : Type) : Type := world -> A * world.

Definition ret {A : Type} (a : A) : M A := fun w => (a, w).

Definition bind {A B : Type} (m : M A) (k : A -> M B) : M B :=
  fun w => let (a, w') := m w in k a w'.

Notation "x <- m ;; k" := (bind m (fun x => k))
  (at level 61, m at next level, right associativity).
Notation "m ;; k" := (bind m (fun _ => k))
  (at level 61, right associativity).

Definition gets {A : Type} (f : world -> A) : M A := fun w => (f w, w).
Definition modify (f : world -> world) : M unit := fun w => (tt, f w).

Definition emit (c : call) : M unit :=
  modify (fun w => set_trace (trace w ++ [c]) w).

(** ** Memory *)

(** A load from an array.  The driver loads from the screen memory at
    indices below [par->width * par->height / 8], its size; an index
    outside the list reads as 0 here. *)
Definition peek (mem : list Z) (i : Z) : Z := nth (Z.to_nat i) mem 0.

(** A store into an array.  The driver stores into [data] at indices
    below its length (lemma [frame_len_eq]); an index outside the list
    leaves it as it is here. *)
Fixpoint poke (mem : list Z) (i : nat) (v : Z) : list Z :=
  match mem, i with
  | [], _ => []
  | _ :: t, O => v :: t
  | h :: t, S k => h :: poke t k v
  end.

(** A block store of [bytes] at offset [off] of [mem]: [None] when it
    would run past the end of [mem]. *)
Definition store_block (mem : list Z) (off : Z) (bytes : list Z) : option (list Z) :=
  if off + Z.of_nat (length bytes) <=? Z.of_nat (length mem)
  then Some (firstn (Z.to_nat off) mem ++ bytes
             ++ skipn (Z.to_nat off + length bytes) mem)
  else None.

Definition set_par (width height : Z) (w : world) : world :=
  {| par_width := width; par_height := height;
     smem_len := smem_len w; screen_base := screen_base w;
     keybit := keybit w; defio_delay := defio_delay w; overrun := overrun w;
     n_send := n_send w; n_recv := n_recv w; n_kzalloc := n_kzalloc w;
     trace := trace w |}.

Definition set_smem_len (len : Z) (w : world) : world :=
  {| par_width := par_width w; par_height := par_height w;
     smem_len := len; screen_base := screen_base w;
     keybit := keybit w; defio_delay := defio_delay w; overrun := overrun w;
     n_send := n_send w; n_recv := n_recv w; n_kzalloc := n_kzalloc w;
     trace := trace w |}.

Definition set_keybit (keys : list Z) (w : world) : world :=
  {| par_width := par_width w; par_height := par_height w;
     smem_len := smem_len w; screen_base := screen_base w;
     keybit := keys; defio_delay := defio_delay w; overrun := overrun w;
     n_send := n_send w; n_recv := n_recv w; n_kzalloc := n_kzalloc w;
     trace := trace w |}.

Definition set_defio_delay (jiffies : Z) (w : world) : world :=
  {| par_width := par_width w; par_height := par_height w;
     smem_len := smem_len w; screen_base := screen_base w;
     keybit := keybit w; defio_delay := jiffies; overrun := overrun w;
     n_send := n_send w; n_recv := n_recv w; n_kzalloc := n_kzalloc w;
     trace := trace w |}.

(** ** The driver *)

Section Driver.

Variable E : env.

(** *** Kernel services *)

Definition i2c_master_send (buf : list Z) (len : Z) : M Z :=
  fun w =>
    (int (i2c_send_ret E (n_send w)),
     set_n_send (S (n_send w))
       (set_trace (trace w ++ [I2cMasterSend (firstn (Z.to_nat len) buf)]) w)).

(** Returns the value of the call and the byte it left in the
    one-byte buffer. *)
Definition i2c_master_recv (count : Z) : M (Z * Z) :=
  fun w =>
    let (r, data) := i2c_recv_ret E (n_recv w) in
    ((int r, u8 data),
     set_n_recv (S (n_recv w))
       (set_trace (trace w ++ [I2cMasterRecv count]) w)).

Definition msleep (ms : Z) : M unit := emit (Msleep ms).
Definition dev_err (m : message) : M unit := emit (Log m).
Definition input_report_key (code value : Z) : M unit :=
  emit (InputReportKey code value).
Definition input_sync : M unit := emit InputSync.

(** [kzalloc]: zeroed memory, or [None] for a null pointer. *)
Definition kzalloc (len : Z) : M (option (list Z)) :=
  fun w =>
    (if kzalloc_ok E (n_kzalloc w) then Some (repeat 0 (Z.to_nat len)) else None,
     set_n_kzalloc (S (n_kzalloc w)) w).

(** [copy_from_user] to offset [off] of the screen memory.  [ubuf] is
    what can be read at the user address; the bytes that cannot be read
    are zeroed in the destination and their number is returned. *)
Definition copy_from_user (off : Z) (ubuf : list Z) (count : Z) : M Z :=
  fun w =>
    let n := Z.min count (Z.of_nat (length ubuf)) in
    let bytes := firstn (Z.to_nat n) ubuf ++ repeat 0 (Z.to_nat (count - n)) in
    (count - n,
     match store_block (screen_base w) off bytes with
     | Some mem => set_screen mem w
     | None => set_overrun true w
     end).

(** *** Command helpers *)

Definition matrixorbital_write_array (buf : list Z) (len : Z) : M Z :=
  r <- i2c_master_send buf len ;;
  if negb (u32 r =? len)
  then dev_err MsgCouldntSend ;; ret (-1)
  else ret 0.

Definition matrixorbital_write_cmd (cmd : Z) : M Z :=
  matrixorbital_write_array [0xFE; cmd] 2.

Definition matrixorbital_write_param (cmd value : Z) : M Z :=
  matrixorbital_write_array [0xFE; cmd; value] 3.

Definition matrixorbital_read_param (cmd : Z) : M Z :=
  matrixorbital_write_cmd cmd ;;
  msleep 5 ;;
  rd <- i2c_master_recv 1 ;;
  ret (if fst rd =? 1 then snd rd else fst rd).

(** *** Display update *)

(** [len = 6 + par->width * par->height / 8], computed in [u32] and kept
    in an [int]. *)
Definition frame_len (width height : Z) : Z :=
  int (u32 (6 + u32 (width * height) / 8)).

(** The loop of [matrixorbitalfb_update_display]: [todo] passes are
    left, [i] is the loop variable. *)
Fixpoint copy_reversed (vmem : list Z) (todo : nat) (i : Z) (data : list Z)
  : list Z :=
  match todo with
  | O => data
  | S k =>
      copy_reversed vmem k (i + 1)
        (poke data (Z.to_nat (i + 6)) (reverse_bits_in_byte (peek vmem i)))
  end.

(** The header and the payload written into the zeroed [data]. *)
Definition bitmap_frame (width height : Z) (vmem data : list Z) : list Z :=
  let data := poke data 0 0xFE in
  let data := poke data 1 MATRIXORBITAL_DRAW_BITMAP_DIRECTLY in
  let data := poke data 2 0 in
  let data := poke data 3 0 in
  let data := poke data 4 (u8 width) in
  let data := poke data 5 (u8 height) in
  copy_reversed vmem (Z.to_nat (u32 (height * width) / 8)) 0 data.

Definition matrixorbitalfb_update_display : M unit :=
  vmem <- gets screen_base ;;
  width <- gets par_width ;;
  height <- gets par_height ;;
  let len := frame_len width height in
  data <- kzalloc len ;;
  match data with
  | None => ret tt
  | Some data =>
      matrixorbital_write_array (bitmap_frame width height vmem data) len ;;
      ret tt
  end.

(** *** Frame buffer operations *)

(** Lines 136-137: the count after the check against [total_size]. *)
Definition clamp_count (total_size p count : Z) : Z :=
  if total_size <? ulong (count + p) then ulong (total_size - p) else count.

(** Returns the value of the call and the file position it leaves in
    [*ppos]. *)
Definition matrixorbitalfb_write (ubuf : list Z) (count ppos : Z) : M (Z * Z) :=
  total_size <- gets smem_len ;;
  let p := ulong ppos in
  if total_size <? p then ret (- EINVAL, ppos)
  else
    let count := clamp_count total_size p count in
    if count =? 0 then ret (- EINVAL, ppos)
    else
      left <- copy_from_user p ubuf count ;;
      if negb (left =? 0) then ret (- EFAULT, ppos)
      else
        matrixorbitalfb_update_display ;;
        ret (s64 count, s64 (ppos + count)).

Definition matrixorbitalfb_blank (blank_mode : Z) : M Z := ret 0.

Definition matrixorbitalfb_fillrect (rect : fb_fillrect) : M unit :=
  modify (fun w => set_screen (sys_fillrect E rect (screen_base w)) w) ;;
  matrixorbitalfb_update_display.

Definition matrixorbitalfb_copyarea (area : fb_copyarea) : M unit :=
  modify (fun w => set_screen (sys_copyarea E area (screen_base w)) w) ;;
  matrixorbitalfb_update_display.

Definition matrixorbitalfb_imageblit (image : fb_image) : M unit :=
  modify (fun w => set_screen (sys_imageblit E image (screen_base w)) w) ;;
  matrixorbitalfb_update_display.

Definition matrixorbitalfb_deferred_io : M unit :=
  matrixorbitalfb_update_display.

(** *** Panel initialisation *)

Definition matrixorbital_init : M Z :=
  matrixorbital_write_param MATRIXORBITAL_TX_PROTOCOL_SELECT 0 ;;
  r <- matrixorbital_read_param MATRIXORBITAL_READ_MODULE_TYPE ;;
  dev_err (MsgModuleType r) ;;
  matrixorbital_write_cmd MATRIXORBITAL_AUTO_TX_KEY_PRESS_OFF ;;
  r <- matrixorbital_write_cmd MATRIXORBITAL_CLEAR_SCREEN ;;
  if r <? 0 then ret r else ret 0.

(** *** Keypad *)

Definition matrixorbital_report_key (matrixorbital_keycode : Z) : M unit :=
  keycode <-
    (if matrixorbital_keycode =? 0x41 then ret (u8 KEY_ESC)
     else if matrixorbital_keycode =? 0x42 then ret (u8 KEY_UP)
     else if matrixorbital_keycode =? 0x43 then ret (u8 KEY_RIGHT)
     else if matrixorbital_keycode =? 0x44 then ret (u8 KEY_LEFT)
     else if matrixorbital_keycode =? 0x45 then ret (u8 KEY_ENTER)
     else if matrixorbital_keycode =? 0x47 then ret (u8 KEY_BACKSPACE)
     else if matrixorbital_keycode =? 0x48 then ret (u8 KEY_DOWN)
     else dev_err (MsgUnknownKeycode matrixorbital_keycode) ;; ret 0) ;;
  dev_err (MsgReportKey keycode matrixorbital_keycode) ;;
  input_report_key keycode 1 ;;
  input_sync ;;
  input_report_key keycode 0 ;;
  input_sync.

(** One pass through the body of the [do ... while] of
    [matrixorbital_keypad_poll]: [true] when the loop goes round again,
    [false] when the function returns. *)
Definition keypad_poll_pass : M bool :=
  r <- matrixorbital_read_param MATRIXORBITAL_POLL_KEY_PRESS ;;
  if r <? 0 then ret false
  else if r =? 0 then ret false
  else
    matrixorbital_report_key (Z.land r 0x7F) ;;
    ret (negb (Z.land r 0x80 =? 0)).

(** The loop has no bound of its own: it runs as long as the device
    sets bit 7.  [fuel] bounds the passes; [None] when they do not
    suffice. *)
Fixpoint matrixorbital_keypad_poll (fuel : nat) (w : world) : option world :=
  match fuel with
  | O => None
  | S k =>
      let (again, w') := keypad_poll_pass w in
      if again then matrixorbital_keypad_poll k w' else Some w'
  end.

(** *** Bring-up *)

Definition call_service (s : service) : M unit := emit (Kernel s).

Definition fb_alloc_error (r : Z) : M (option Z) :=
  call_service FramebufferRelease ;; ret (Some r).

Definition panel_init_error (r : Z) : M (option Z) :=
  call_service FbDeferredIoCleanup ;; fb_alloc_error r.

Definition err_free_dev (r : Z) : M (option Z) :=
  call_service InputFreePolledDevice ;; panel_init_error r.

(** [matrixorbital_probe]; of the fields of [info] and of the input
    device, those are kept that the functions above read.  The value is
    [Some r] when the probe returns [r], and [None] when it does not
    return: [HZ / refreshrate] is an unsigned division, and with the
    module parameter at 0 it is a division by zero. *)
Definition matrixorbital_probe : M (option Z) :=
  call_service FramebufferAlloc ;;
  if negb (framebuffer_alloc_ok E)
  then dev_err MsgCouldntAllocFb ;; ret (Some (- ENOMEM))
  else
    modify (set_par 192 64) ;;
    width <- gets par_width ;;
    height <- gets par_height ;;
    let vmem_size := u32 (width * height) / 8 in
    call_service GetFreePages ;;
    if negb (get_free_pages_ok E)
    then dev_err MsgCouldntAllocVmem ;; fb_alloc_error (- ENOMEM)
    else
      call_service DevmKzalloc ;;
      if negb (devm_kzalloc_ok E)
      then dev_err MsgCouldntAllocDefio ;; fb_alloc_error (- ENOMEM)
      else
        if u32 (refreshrate E) =? 0 then ret None
        else
          modify (set_defio_delay (u32 (HZ E) / u32 (refreshrate E))) ;;
          modify (set_screen (repeat 0 (Z.to_nat vmem_size))) ;;
          modify (set_smem_len vmem_size) ;;
          call_service FbDeferredIoInit ;;
          call_service I2cSetClientdata ;;
          r <- matrixorbital_init ;;
          if negb (r =? 0) then panel_init_error r
          else
            call_service RegisterFramebuffer ;;
            let r := int (register_framebuffer_ret E) in
            if negb (r =? 0)
            then dev_err MsgCouldntRegisterFb ;; panel_init_error r
            else
              call_service DevmInputAllocatePolledDevice ;;
              if negb (input_allocate_ok E)
              then dev_err MsgNotEnoughMemory ;; ret (Some (- ENOMEM))
              else
                modify (set_keybit [KEY_ESC; KEY_BACKSPACE; KEY_ENTER; KEY_UP;
                                    KEY_LEFT; KEY_RIGHT; KEY_DOWN]) ;;
                call_service InputRegisterPolledDevice ;;
                let r := int (input_register_ret E) in
                if negb (r =? 0)
                then dev_err MsgFailedRegisterInput ;; err_free_dev r
                else dev_err (MsgRegistered vmem_size) ;; ret (Some 0).

(** *** Teardown *)


End Driver.

(** *** The operations table *)

(** The drawing entries of [matrixorbitalfb_ops]. *)
Inductive draw_op : Type :=
| RawWrite (ubuf : list Z) (count ppos : Z)   (* .fb_write *)
| FillRect (rect : fb_fillrect)               (* .fb_fillrect *)
| CopyArea (area : fb_copyarea)               (* .fb_copyarea *)
| ImageBlit (image : fb_image).               (* .fb_imageblit *)

Definition draw (E : env) (op : draw_op) : M unit :=
  match op with
  | RawWrite ubuf count ppos => matrixorbitalfb_write E ubuf count ppos ;; ret tt
  | FillRect rect => matrixorbitalfb_fillrect E rect
  | CopyArea area => matrixorbitalfb_copyarea E area
  | ImageBlit image => matrixorbitalfb_imageblit E image
  end.

(** Drawing calls one after the other, nothing else in between. *)
Fixpoint draw_all (E : env) (ops : list draw_op) : M unit :=
  match ops with
  | [] => ret tt
  | op :: rest => draw E op ;; draw_all E rest
  end.

(** A raw write that reaches the display update: the position is not
    past the end, the count left is not zero and the user memory can be
    read. *)
Definition reaches_update (total_size : Z) (op : draw_op) : bool :=
  match op with
  | RawWrite ubuf count ppos =>
      negb (total_size <? ulong ppos)
      && negb (clamp_count total_size (ulong ppos) count =? 0)
      && (clamp_count total_size (ulong ppos) count
          - Z.min (clamp_count total_size (ulong ppos) count)
                  (Z.of_nat (length ubuf)) =? 0)
  | _ => true
  end.

(** ** Reading a trace *)

(** The transmissions on the bus. *)
Fixpoint sent (t : list call) : list (list Z) :=
  match t with
  | [] => []
  | I2cMasterSend bytes :: t => bytes :: sent t
  | _ :: t => sent t
  end.

(** The key events handed to the input core: code and value, 1 for a
    press and 0 for a release. *)
Fixpoint reported (t : list call) : list (Z * Z) :=
  match t with
  | [] => []
  | InputReportKey code value :: t => (code, value) :: reported t
  | _ :: t => reported t
  end.

(** The codes logged as unknown. *)
Fixpoint unknown_codes (t : list call) : list Z :=
  match t with
  | [] => []
  | Log (MsgUnknownKeycode code) :: t => code :: unknown_codes t
  | _ :: t => unknown_codes t
  end.

(** The transmissions of a trace, each with what [i2c_master_send]
    returned for it; the first of them is transmission number [n]. *)
Fixpoint answered (E : env) (n : nat) (t : list call) : list (list Z * Z) :=
  match t with
  | [] => []
  | I2cMasterSend bytes :: t => (bytes, int (i2c_send_ret E n)) :: answered E (S n) t
  | _ :: t => answered E n t
  end.

(** The kernel services called on the bring-up path. *)
Fixpoint services (t : list call) : list service :=
  match t with
  | [] => []
  | Kernel s :: t => s :: services t
  | _ :: t => services t
  end.

(** The content of [data] when [matrixorbitalfb_update_display] hands it
    to the bus. *)
Definition wire_frame (width height : Z) (vmem : list Z) : list Z :=
  bitmap_frame width height vmem (repeat 0 (Z.to_nat (frame_len width height))).

(** The transmission of a display update in state [w]. *)
Definition frame_of (w : world) : list Z :=
  firstn (Z.to_nat (frame_len (par_width w) (par_height w)))
         (wire_frame (par_width w) (par_height w) (screen_base w)).

(** The transmissions a sequence of drawing calls is to make: after each
    call that reaches the display update, the frame of the surface as
    that call left it. *)
Fixpoint frames_after (E : env) (ops : list draw_op) (w : world) : list (list Z) :=
  match ops with
  | [] => []
  | op :: rest =>
      let w' := snd (draw E op w) in
      (if reaches_update (smem_len w) op then [frame_of w'] else [])
      ++ frames_after E rest w'
  end.

(** The translation table of the specification: device code, logical key. *)
Definition translation_table : list (Z * Z) :=
  [(0x41, KEY_ESC); (0x42, KEY_UP); (0x43, KEY_RIGHT); (0x44, KEY_LEFT);
   (0x45, KEY_ENTER); (0x47, KEY_BACKSPACE); (0x48, KEY_DOWN)].

Definition header_192x64 : list Z := [0xFE; 0x64; 0; 0; 192; 64].

(** ** Environments and states to run the driver on *)

(** A panel as [matrixorbital_probe] leaves it (with [HZ] at 100 and the
    refresh rate at 5), the screen memory holding [vmem]. *)
Definition panel_showing (vmem : list Z) : world :=
  {| par_width := 192; par_height := 64;
     smem_len := 1536; screen_base := vmem;
     keybit := [KEY_ESC; KEY_BACKSPACE; KEY_ENTER; KEY_UP;
                KEY_LEFT; KEY_RIGHT; KEY_DOWN];
     defio_delay := 20;
     overrun := false;
     n_send := 0; n_recv := 0; n_kzalloc := 0; trace := [] |}.

Definition panel : world := panel_showing (repeat 0 1536).

(** The state in which [matrixorbital_probe] calls [matrixorbital_init]
    when its allocations succeed. *)
Definition probed (E : env) : world :=
  set_trace [Kernel FramebufferAlloc; Kernel GetFreePages; Kernel DevmKzalloc;
             Kernel FbDeferredIoInit; Kernel I2cSetClientdata]
    (set_smem_len 1536
       (set_screen (repeat 0 1536)
          (set_defio_delay (u32 (HZ E) / u32 (refreshrate E))
             (set_par 192 64 boot)))).

(** The services of a bring-up that stops at a failed [matrixorbital_init]:
    the frame buffer is not registered, what was set up is released. *)
Definition aborted_bring_up : list service :=
  [FramebufferAlloc; GetFreePages; DevmKzalloc; FbDeferredIoInit;
   I2cSetClientdata; FbDeferredIoCleanup; FramebufferRelease].

(** A fill that sets every byte of the screen to the colour. *)
Definition flood (rect : fb_fillrect) (vmem : list Z) : list Z :=
  map (fun _ => u8 (fr_color rect)) vmem.

(** An environment answering from lists: [acks] and then [ack] for
    [i2c_master_send], [replies] and then [reply] for [i2c_master_recv];
    every allocation and registration succeeds. *)
Definition scripted (acks : list Z) (ack : Z)
                    (replies : list (Z * Z)) (reply : Z * Z) : env :=
  {| i2c_send_ret := fun n => nth n acks ack;
     i2c_recv_ret := fun n => nth n replies reply;
     kzalloc_ok := fun _ => true;
     sys_fillrect := flood;
     sys_copyarea := fun _ vmem => vmem;
     sys_imageblit := fun _ vmem => vmem;
     framebuffer_alloc_ok := true;
     get_free_pages_ok := true;
     devm_kzalloc_ok := true;
     register_framebuffer_ret := 0;
     input_allocate_ok := true;
     input_register_ret := 0;
     HZ := 100;
     refreshrate := 5 |}.

(** [E] with other answers from the bus and from [kzalloc]. *)
Definition with_bus (acks : nat -> Z) (allocs : nat -> bool) (E : env) : env :=
  {| i2c_send_ret := acks;
     i2c_recv_ret := i2c_recv_ret E;
     kzalloc_ok := allocs;
     sys_fillrect := sys_fillrect E;
     sys_copyarea := sys_copyarea E;
     sys_imageblit := sys_imageblit E;
     framebuffer_alloc_ok := framebuffer_alloc_ok E;
     get_free_pages_ok := get_free_pages_ok E;
     devm_kzalloc_ok := devm_kzalloc_ok E;
     register_framebuffer_ret := register_framebuffer_ret E;
     input_allocate_ok := input_allocate_ok E;
     input_register_ret := input_register_ret E;
     HZ := HZ E;
     refreshrate := refreshrate E |}.

(** The display acknowledges every frame. *)
Definition drawing_env : env := scripted [] 1542 [] (1, 0).

(** The keypad answers 0xC1, 0x42, 0x00 to the polls. *)
Definition burst_env : env := scripted [] 2 [(1, 0xC1); (1, 0x42); (1, 0x00)] (1, 0).

(** The keypad answers 0x50. *)
Definition unknown_env : env := scripted [] 2 [(1, 0x50)] (1, 0).

(** [i2c_master_recv] returns 2. *)
Definition two_byte_env : env := scripted [] 2 [(2, 0)] (1, 0).

(** [i2c_master_recv] returns 0. *)
Definition no_byte_env : env := scripted [] 2 [(0, 0)] (1, 0).

(** Nothing pending: the keypad answers 0x00. *)
Definition idle_env : env := scripted [] 2 [] (1, 0).

(** The model read fails with -EREMOTEIO; every command is acknowledged. *)
Definition no_model_env : env := scripted [3; 2; 2; 2] 2 [(-121, 0)] (1, 0).

(** Only the clear-screen command is not acknowledged. *)
Definition no_clear_env : env := scripted [3; 2; 2; -121] 2 [(1, 0x24)] (1, 0).

Definition white : fb_fillrect :=
  {| fr_dx := 0; fr_dy := 0; fr_width := 192; fr_height := 64;
     fr_color := 0xFF; fr_rop := 0 |}.

Definition black : fb_fillrect :=
  {| fr_dx := 0; fr_dy := 0; fr_width := 192; fr_height := 64;
     fr_color := 0; fr_rop := 0 |}.

(** ** Reading the answers of the keypad *)

(** What [matrixorbital_read_param] returns on the [n]-th answer of
    [i2c_master_recv]. *)
Definition answer_value (E : env) (n : nat) : Z :=
  if int (fst (i2c_recv_ret E n)) =? 1
  then u8 (snd (i2c_recv_ret E n))
  else int (fst (i2c_recv_ret E n)).

(** An answer after which the poll loop goes round again. *)
Definition continues (v : Z) : bool := (0 <? v) && negb (Z.land v 0x80 =? 0).

(** The key [matrixorbital_report_key] reports for a code: the entry of
    the table, key 0 without one. *)
Fixpoint lookup_key (table : list (Z * Z)) (code : Z) : Z :=
  match table with
  | [] => KEY_RESERVED
  | (c, key) :: rest => if code =? c then key else lookup_key rest code
  end.

(** A press and a release of each key in turn. *)
Definition press_release (keys : list Z) : list (Z * Z) :=
  flat_map (fun key => [(key, 1); (key, 0)]) keys.

(** The messages logged. *)
Fixpoint logged (t : list call) : list message :=
  match t with
  | [] => []
  | Log m :: t => m :: logged t
  | _ :: t => logged t
  end.

(** ** The state the frame buffer operations rely on *)

(** [smem_len] is the size of the screen memory, as [matrixorbital_probe]
    sets it, and no store has run past its end. *)
Definition panel_ok (w : world) : Prop :=
  smem_len w = Z.of_nat (length (screen_base w)) /\
  smem_len w < 2 ^ 32 /\
  overrun w = false.

(** The generic drawing helpers draw inside the screen memory. *)
Definition helpers_keep_length (E : env) : Prop :=
  (forall rect vmem, length (sys_fillrect E rect vmem) = length vmem) /\
  (forall area vmem, length (sys_copyarea E area vmem) = length vmem) /\
  (forall image vmem, length (sys_imageblit E image vmem) = length vmem).

(** A raw write whose position and count are in the non-negative range
    of [loff_t] and [ssize_t]. *)
Definition op_in_range (op : draw_op) : Prop :=
  match op with
  | RawWrite _ count ppos => 0 <= ppos <= LLONG_MAX /\ 0 <= count <= LLONG_MAX
  | _ => True
  end.

Definition is_byte (b : Z) : Prop := 0 <= b < 256.

(** ** More environments *)

(** The keypad answers 0xC1 to every poll. *)
Definition stuck_env : env := scripted [] 2 [] (1, 0xC1).

(** The keypad answers three codes with bit 7 set, then one without. *)
Definition long_burst_env : env :=
  scripted [] 2 [(1, 0xC1); (1, 0xC8); (1, 0xD0); (1, 0x45)] (1, 0).

(** The bus acknowledges nothing. *)
Definition dead_bus_env : env := scripted [] (-121) [] (-121, 0).

(** Every command is acknowledged, the model reads as 0x24. *)
Definition healthy_env : env := scripted [3; 2; 2; 2] 1542 [(1, 0x24)] (1, 0).

(** [E] with other outcomes of the allocations and registrations of the
    bring-up. *)
Definition with_bring_up (fb pages defio : bool) (reg : Z) (input : bool)
                         (inreg : Z) (E : env) : env :=
  {| i2c_send_ret := i2c_send_ret E;
     i2c_recv_ret := i2c_recv_ret E;
     kzalloc_ok := kzalloc_ok E;
     sys_fillrect := sys_fillrect E;
     sys_copyarea := sys_copyarea E;
     sys_imageblit := sys_imageblit E;
     framebuffer_alloc_ok := fb;
     get_free_pages_ok := pages;
     devm_kzalloc_ok := defio;
     register_framebuffer_ret := reg;
     input_allocate_ok := input;
     input_register_ret := inreg;
     HZ := HZ E;
     refreshrate := refreshrate E |}.


(** A surface with a pattern in its first three bytes. *)
Definition patterned : world :=
  panel_showing ([0x01; 0x80; 0xF0] ++ repeat 0x55 1533).

(** The frame allocation fails every time. *)
Definition no_memory_env : env :=
  with_bus (fun _ => 1542) (fun _ => false) drawing_env.

(** * Properties *)

(** ** Bit reversal *)

Lemma all_bytes_complete (b : Z) : 0 <= b < 256 -> In b all_bytes.
Proof.
  intros Hb. unfold all_bytes.
  apply in_map_iff. exists (Z.to_nat b). split; [lia|].
  apply in_seq. lia.
Qed.

(** A decidable property of bytes holds of every byte once it has been
    checked on the 256 of them. *)
Lemma byte_cases (P : Z -> bool) :
  forallb P all_bytes = true -> forall b, 0 <= b < 256 -> P b = true.
Proof.
  intros Hall b Hb.
  rewrite forallb_forall in Hall. apply Hall, all_bytes_complete, Hb.
Qed.

Lemma reverse_bits_in_byte_range (b : Z) : 0 <= reverse_bits_in_byte b < 256.
Proof.
  unfold reverse_bits_in_byte, u8, wrap.
  apply Z.mod_pos_bound. reflexivity.
Qed.

Lemma reverse_bits_stages (b : Z) :
  reverse_bits_in_byte b = swap_bits (swap_pairs (swap_nibbles b)).
Proof. reflexivity. Qed.

(** The transform mirrors the byte: bit [i] of the result is bit [7 - i]
    of the argument. *)
Lemma reverse_bits_in_byte_testbit (b i : Z) :
  0 <= b < 256 -> 0 <= i < 8 ->
  Z.testbit (reverse_bits_in_byte b) i = Z.testbit b (7 - i).
Proof.
  intros Hb Hi.
  pose (P := fun b =>
    forallb (fun i => Bool.eqb (Z.testbit (reverse_bits_in_byte b) i)
                               (Z.testbit b (7 - i)))
            [0; 1; 2; 3; 4; 5; 6; 7]).
  assert (HP : P b = true) by (apply byte_cases; [vm_compute; reflexivity | exact Hb]).
  unfold P in HP. rewrite forallb_forall in HP.
  apply Bool.eqb_prop, HP.
  assert (Hc : i = 0 \/ i = 1 \/ i = 2 \/ i = 3 \/ i = 4 \/ i = 5 \/ i = 6 \/ i = 7) by lia.
  simpl. intuition.
Qed.

(** Each stage exchanges the bits whose positions differ in one binary
    digit: by 4 for the nibbles, by 2 for the 2-bit groups, by 1 for
    adjacent bits. *)
Lemma swap_stages_testbit (b i : Z) :
  0 <= b < 256 -> 0 <= i < 8 ->
  Z.testbit (swap_nibbles b) i = Z.testbit b (Z.lxor i 4) /\
  Z.testbit (swap_pairs b) i = Z.testbit b (Z.lxor i 2) /\
  Z.testbit (swap_bits b) i = Z.testbit b (Z.lxor i 1).
Proof.
  intros Hb Hi.
  pose (P := fun b =>
    forallb (fun i =>
               Bool.eqb (Z.testbit (swap_nibbles b) i) (Z.testbit b (Z.lxor i 4))
               && Bool.eqb (Z.testbit (swap_pairs b) i) (Z.testbit b (Z.lxor i 2))
               && Bool.eqb (Z.testbit (swap_bits b) i) (Z.testbit b (Z.lxor i 1)))
            [0; 1; 2; 3; 4; 5; 6; 7]).
  assert (HP : P b = true) by (apply byte_cases; [vm_compute; reflexivity | exact Hb]).
  unfold P in HP. rewrite forallb_forall in HP.
  assert (Hin : In i [0; 1; 2; 3; 4; 5; 6; 7]) by (simpl; lia).
  specialize (HP i Hin).
  apply andb_prop in HP. destruct HP as (HP & H1).
  apply andb_prop in HP. destruct HP as (H4 & H2).
  repeat split; apply Bool.eqb_prop; assumption.
Qed.

(** C7. For every byte [b], reversing its bits twice gives [b] back, where
    the reversal swaps the nibbles, then the 2-bit groups, then adjacent
    bits. *)
Theorem reverse_bits_in_byte_involutive (b : Z) :
  0 <= b < 256 ->
  reverse_bits_in_byte (reverse_bits_in_byte b) = b /\
  reverse_bits_in_byte b = swap_bits (swap_pairs (swap_nibbles b)) /\
  forall i, 0 <= i < 8 ->
    Z.testbit (swap_nibbles b) i = Z.testbit b (Z.lxor i 4) /\
    Z.testbit (swap_pairs b) i = Z.testbit b (Z.lxor i 2) /\
    Z.testbit (swap_bits b) i = Z.testbit b (Z.lxor i 1).
Proof.
  intros Hb. split; [|split].
  - apply Z.eqb_eq.
    apply (byte_cases (fun b => reverse_bits_in_byte (reverse_bits_in_byte b) =? b));
      [vm_compute; reflexivity | exact Hb].
  - reflexivity.
  - intros i Hi. apply swap_stages_testbit; assumption.
Qed.

Lemma reverse_bits_in_byte_involutive_witness :
  reverse_bits_in_byte 0xC1 = 0x83 /\
  reverse_bits_in_byte (reverse_bits_in_byte 0xC1) = 0xC1.
Proof.
  split; [reflexivity|].
  assert (Hb : 0 <= 0xC1 < 256) by lia.
  pose proof (reverse_bits_in_byte_involutive 0xC1 Hb) as (H & _).
  exact H.
Defined.

(** ** Integer conversions *)

Lemma u32_small (x : Z) : 0 <= x < 2 ^ 32 -> u32 x = x.
Proof. intros H. unfold u32, wrap. apply Z.mod_small, H. Qed.

Lemma ulong_small (x : Z) : 0 <= x < 2 ^ 64 -> ulong x = x.
Proof. intros H. unfold ulong, wrap. apply Z.mod_small, H. Qed.

Lemma int_small (x : Z) : - 2 ^ 31 <= x < 2 ^ 31 -> int x = x.
Proof.
  intros H. unfold int, swrap.
  change (2 ^ (32 - 1)) with (2 ^ 31). rewrite Z.mod_small; lia.
Qed.

Lemma s64_small (x : Z) : - 2 ^ 63 <= x < 2 ^ 63 -> s64 x = x.
Proof.
  intros H. unfold s64, swrap.
  change (2 ^ (64 - 1)) with (2 ^ 63). rewrite Z.mod_small; lia.
Qed.

Lemma int_range (x : Z) : - 2 ^ 31 <= int x < 2 ^ 31.
Proof.
  unfold int, swrap. change (2 ^ (32 - 1)) with (2 ^ 31).
  pose proof (Z.mod_pos_bound (x + 2 ^ 31) (2 ^ 32) eq_refl). lia.
Qed.

(** [ret != len] compares an [int] with a [u32]: the [int] is converted.
    For the lengths the driver sends that is the comparison of the
    numbers. *)
Lemma u32_int_eqb (x len : Z) :
  0 <= len < 2 ^ 31 -> (u32 (int x) =? len) = (int x =? len).
Proof.
  intros Hlen. pose proof (int_range x) as Hr.
  unfold u32, wrap.
  destruct (Z.eqb_spec (int x) len) as [Heq | Hne].
  - rewrite Heq. apply Z.eqb_eq, Z.mod_small. lia.
  - apply Z.eqb_neq. intros Hmod.
    destruct (Z_lt_le_dec (int x) 0) as [Hneg | Hpos].
    + assert (Hs : (int x + 2 ^ 32) mod 2 ^ 32 = int x + 2 ^ 32)
        by (apply Z.mod_small; lia).
      replace ((int x + 2 ^ 32) mod 2 ^ 32) with (int x mod 2 ^ 32) in Hs.
      * lia.
      * rewrite <- (Z.mul_1_l (2 ^ 32)) at 2. now rewrite Z.mod_add.
    + rewrite Z.mod_small in Hmod; lia.
Qed.

(** ** Traces *)

Lemma sent_app (s t : list call) : sent (s ++ t) = sent s ++ sent t.
Proof.
  induction s as [|c s IH]; simpl; [reflexivity|].
  destruct c; simpl; rewrite IH; reflexivity.
Qed.

Lemma reported_app (s t : list call) : reported (s ++ t) = reported s ++ reported t.
Proof.
  induction s as [|c s IH]; simpl; [reflexivity|].
  destruct c; simpl; rewrite IH; reflexivity.
Qed.

Lemma unknown_codes_app (s t : list call) :
  unknown_codes (s ++ t) = unknown_codes s ++ unknown_codes t.
Proof.
  induction s as [|c s IH]; simpl; [reflexivity|].
  destruct c as [| | |m| | |]; simpl; try (rewrite IH; reflexivity).
  destruct m; simpl; rewrite IH; reflexivity.
Qed.

Lemma services_app (s t : list call) : services (s ++ t) = services s ++ services t.
Proof.
  induction s as [|c s IH]; simpl; [reflexivity|].
  destruct c; simpl; rewrite IH; reflexivity.
Qed.

Ltac unfold_monad := unfold bind, ret, gets, emit, modify.

Ltac unfold_commands :=
  unfold matrixorbital_read_param, matrixorbital_write_param,
    matrixorbital_write_cmd, matrixorbital_write_array,
    i2c_master_send, i2c_master_recv, msleep, dev_err,
    input_report_key, input_sync, call_service.

Ltac split_branches :=
  repeat (match goal with
          | |- context [let (_, _) := i2c_recv_ret ?E ?n in _] =>
              destruct (i2c_recv_ret E n) eqn:?
          | |- context [if negb ?c then _ else _] => destruct c eqn:?
          | |- context [if ?c then _ else _] => destruct c eqn:?
          end; simpl).

Lemma init_result E w :
  fst (matrixorbital_init E w) =
  if int (i2c_send_ret E (3 + n_send w)) =? 2 then 0 else -1.
Proof.
  rewrite <- (u32_int_eqb _ 2) by lia.
  unfold matrixorbital_init. unfold_commands. unfold_monad. simpl.
  split_branches; try reflexivity; try discriminate; congruence.
Qed.

Lemma read_param_result E cmd w :
  fst (matrixorbital_read_param E cmd w) =
  if int (fst (i2c_recv_ret E (n_recv w))) =? 1
  then u8 (snd (i2c_recv_ret E (n_recv w)))
  else int (fst (i2c_recv_ret E (n_recv w))).
Proof.
  unfold_commands. unfold_monad. simpl.
  split_branches; reflexivity.
Qed.

Lemma read_param_effect E cmd w :
  let w' := snd (matrixorbital_read_param E cmd w) in
  n_recv w' = S (n_recv w) /\
  n_send w' = S (n_send w) /\
  reported (trace w') = reported (trace w) /\
  unknown_codes (trace w') = unknown_codes (trace w) /\
  screen_base w' = screen_base w.
Proof.
  unfold_commands. unfold_monad. simpl.
  split_branches; rewrite ?reported_app, ?unknown_codes_app; simpl;
    rewrite ?app_nil_r; auto.
Qed.

Lemma report_key_known code key w :
  In (code, key) translation_table ->
  matrixorbital_report_key code w =
  (tt, set_trace (trace w ++ [Log (MsgReportKey key code); InputReportKey key 1;
                              InputSync; InputReportKey key 0; InputSync]) w).
Proof.
  intros Hin. simpl in Hin.
  unfold matrixorbital_report_key. unfold_commands. unfold_monad.
  repeat (destruct Hin as [Heq | Hin]; [inversion Heq; subst; clear Heq|]);
    [.. | contradiction];
    simpl; unfold set_trace; simpl; rewrite <- !app_assoc; reflexivity.
Qed.

Lemma report_key_unknown code w :
  (forall key, ~ In (code, key) translation_table) ->
  matrixorbital_report_key code w =
  (tt, set_trace (trace w ++ [Log (MsgUnknownKeycode code);
                              Log (MsgReportKey KEY_RESERVED code);
                              InputReportKey KEY_RESERVED 1; InputSync;
                              InputReportKey KEY_RESERVED 0; InputSync]) w).
Proof.
  intros Hout.
  unfold matrixorbital_report_key. unfold_commands. unfold_monad.
  repeat match goal with
         | |- context [code =? ?c] =>
             destruct (Z.eqb_spec code c) as [-> | _];
             [exfalso; eapply Hout; simpl; eauto 10|]
         end.
  simpl; unfold set_trace; simpl; rewrite <- !app_assoc; reflexivity.
Qed.

Lemma report_key_effect code w :
  let w' := snd (matrixorbital_report_key code w) in
  n_recv w' = n_recv w /\ n_send w' = n_send w /\ screen_base w' = screen_base w.
Proof.
  unfold matrixorbital_report_key. unfold_commands. unfold_monad.
  split_branches; auto.
Qed.

Lemma read_param_byte E cmd w d :
  i2c_recv_ret E (n_recv w) = (1, d) ->
  fst (matrixorbital_read_param E cmd w) = u8 d.
Proof. intros H. rewrite read_param_result, H. reflexivity. Qed.

Lemma poll_pass_idle E w :
  fst (matrixorbital_read_param E MATRIXORBITAL_POLL_KEY_PRESS w) <= 0 ->
  keypad_poll_pass E w =
  (false, snd (matrixorbital_read_param E MATRIXORBITAL_POLL_KEY_PRESS w)).
Proof.
  intros Hr. unfold keypad_poll_pass, bind.
  destruct (matrixorbital_read_param E MATRIXORBITAL_POLL_KEY_PRESS w) as [r w1].
  simpl in *.
  destruct (Z.ltb_spec r 0); [reflexivity|].
  destruct (Z.eqb_spec r 0); [reflexivity | lia].
Qed.

Lemma poll_pass_code E w :
  let r := fst (matrixorbital_read_param E MATRIXORBITAL_POLL_KEY_PRESS w) in
  let w1 := snd (matrixorbital_read_param E MATRIXORBITAL_POLL_KEY_PRESS w) in
  0 < r ->
  keypad_poll_pass E w =
  (negb (Z.land r 0x80 =? 0), snd (matrixorbital_report_key (Z.land r 0x7F) w1)).
Proof.
  unfold keypad_poll_pass, bind.
  destruct (matrixorbital_read_param E MATRIXORBITAL_POLL_KEY_PRESS w) as [r w1].
  simpl. intros Hr.
  destruct (Z.ltb_spec r 0); [lia|].
  destruct (Z.eqb_spec r 0); [lia|].
  destruct (matrixorbital_report_key (Z.land r 127) w1) as [[] w2].
  reflexivity.
Qed.

(** The loop unrolled once. *)
Lemma keypad_poll_unroll E fuel w :
  matrixorbital_keypad_poll E (S fuel) w =
  if fst (keypad_poll_pass E w)
  then matrixorbital_keypad_poll E fuel (snd (keypad_poll_pass E w))
  else Some (snd (keypad_poll_pass E w)).
Proof. simpl. destruct (keypad_poll_pass E w). reflexivity. Qed.

(** C3, as amended.  When the keypad answers 0xC1, 0x42 and then 0x00 to
    the polls, one tick reports press and release of Escape, then press
    and release of Up, and nothing else; it stops after the code 0x42,
    whose bit 7 is clear, having read twice, and leaves the 0x00 as the
    next answer, unread.  In general, after an answer above 0 one more
    read has been made, and the loop goes round again within the tick
    exactly when bit 7 of the answer is set. *)
Theorem poll_burst E w fuel :
  i2c_recv_ret E (n_recv w) = (1, 0xC1) ->
  i2c_recv_ret E (S (n_recv w)) = (1, 0x42) ->
  i2c_recv_ret E (S (S (n_recv w))) = (1, 0x00) ->
  (exists w',
      matrixorbital_keypad_poll E (S (S fuel)) w = Some w' /\
      reported (trace w') =
        reported (trace w)
        ++ [(KEY_ESC, 1); (KEY_ESC, 0); (KEY_UP, 1); (KEY_UP, 0)] /\
      n_recv w' = S (S (n_recv w)) /\
      i2c_recv_ret E (n_recv w') = (1, 0x00)) /\
  (forall E0 w0 k,
      let r := fst (matrixorbital_read_param E0 MATRIXORBITAL_POLL_KEY_PRESS w0) in
      let w2 := snd (keypad_poll_pass E0 w0) in
      0 < r ->
      n_recv w2 = S (n_recv w0) /\
      matrixorbital_keypad_poll E0 (S k) w0 =
        if Z.land r 0x80 =? 0 then Some w2 else matrixorbital_keypad_poll E0 k w2).
Proof.
  intros H0 H1 H2. split.
  - pose proof (read_param_effect E MATRIXORBITAL_POLL_KEY_PRESS w) as Hw1.
    pose proof (read_param_byte E MATRIXORBITAL_POLL_KEY_PRESS w _ H0) as Hr1.
    change (u8 0xC1) with 0xC1 in Hr1.
    pose proof (poll_pass_code E w) as Hp1. simpl in Hp1, Hw1.
    rewrite Hr1 in Hp1. specialize (Hp1 eq_refl).
    set (w1 := snd (matrixorbital_read_param E MATRIXORBITAL_POLL_KEY_PRESS w)) in *.
    change (Z.land 0xC1 0x7F) with 0x41 in Hp1.
    rewrite (report_key_known 0x41 KEY_ESC) in Hp1 by (simpl; auto).
    simpl in Hp1.
    destruct Hw1 as (Hn1 & _ & Hk1 & _).
    set (w2 := set_trace _ w1) in Hp1.
    assert (Hn2 : n_recv w2 = S (n_recv w)) by exact Hn1.
    pose proof (read_param_effect E MATRIXORBITAL_POLL_KEY_PRESS w2) as Hw3.
    rewrite <- Hn2 in H1.
    pose proof (read_param_byte E MATRIXORBITAL_POLL_KEY_PRESS w2 _ H1) as Hr2.
    change (u8 0x42) with 0x42 in Hr2.
    pose proof (poll_pass_code E w2) as Hp2. simpl in Hp2, Hw3.
    rewrite Hr2 in Hp2. specialize (Hp2 eq_refl).
    set (w3 := snd (matrixorbital_read_param E MATRIXORBITAL_POLL_KEY_PRESS w2)) in *.
    change (Z.land 0x42 0x7F) with 0x42 in Hp2.
    rewrite (report_key_known 0x42 KEY_UP) in Hp2 by (simpl; auto).
    simpl in Hp2.
    destruct Hw3 as (Hn3 & _ & Hk3 & _).
    eexists. split.
    + rewrite keypad_poll_unroll, Hp1. cbn [fst snd].
      rewrite keypad_poll_unroll, Hp2. cbn [fst snd]. reflexivity.
    + split.
      * simpl. rewrite reported_app, Hk3. unfold w2. simpl.
        rewrite reported_app, Hk1. simpl. rewrite <- app_assoc. reflexivity.
      * assert (Hn4 : n_recv w3 = S (S (n_recv w)))
          by (rewrite Hn3; f_equal; exact Hn2).
        split; [exact Hn4|].
        change (i2c_recv_ret E (n_recv w3) = (1, 0)).
        rewrite Hn4. exact H2.
  - intros E0 w0 k r w2 Hr.
    pose proof (poll_pass_code E0 w0 Hr) as Hp.
    pose proof (read_param_effect E0 MATRIXORBITAL_POLL_KEY_PRESS w0) as (Hn & _).
    fold r in Hp. split.
    + unfold w2. rewrite Hp. cbn [snd].
      destruct (report_key_effect (Z.land r 0x7F)
                  (snd (matrixorbital_read_param E0 MATRIXORBITAL_POLL_KEY_PRESS w0)))
        as (Hk & _).
      rewrite Hk. exact Hn.
    + rewrite keypad_poll_unroll. fold w2. rewrite Hp. cbn [fst].
      destruct (Z.land r 0x80 =? 0); reflexivity.
Qed.

Lemma poll_burst_witness :
  exists w',
    matrixorbital_keypad_poll burst_env 2 panel = Some w' /\
    reported (trace w') = [(KEY_ESC, 1); (KEY_ESC, 0); (KEY_UP, 1); (KEY_UP, 0)] /\
    n_recv w' = 2%nat /\
    i2c_recv_ret burst_env (n_recv w') = (1, 0x00).
Proof.
  pose proof (poll_burst burst_env panel 0 eq_refl eq_refl eq_refl) as (H & _).
  exact H.
Defined.

(** C3 as stated fails: on the answers 0xC1, 0x42, 0x00 the tick ends
    after two reads; the third answer, 0x00, is not read. *)
Lemma poll_burst_leaves_zero_unread :
  option_map n_recv (matrixorbital_keypad_poll burst_env 3 panel) = Some 2%nat /\
  i2c_recv_ret burst_env 2 = (1, 0x00) /\
  option_map n_recv (matrixorbital_keypad_poll burst_env 3 panel) <> Some 3%nat.
Proof.
  split; [vm_compute; reflexivity|]. split; [reflexivity|].
  vm_compute. discriminate.
Qed.

(** Every answer above 0 whose low seven bits are outside the table: one
    unknown-code entry in the log, key 0 pressed and released, and the
    loop goes on as bit 7 says. *)
Lemma poll_pass_unknown E w :
  let r := fst (matrixorbital_read_param E MATRIXORBITAL_POLL_KEY_PRESS w) in
  let w' := snd (keypad_poll_pass E w) in
  0 < r ->
  (forall key, ~ In (Z.land r 0x7F, key) translation_table) ->
  fst (keypad_poll_pass E w) = negb (Z.land r 0x80 =? 0) /\
  unknown_codes (trace w') = unknown_codes (trace w) ++ [Z.land r 0x7F] /\
  reported (trace w') =
    reported (trace w) ++ [(KEY_RESERVED, 1); (KEY_RESERVED, 0)].
Proof.
  intros r w' Hr Hout.
  pose proof (poll_pass_code E w Hr) as Hp. fold r in Hp.
  rewrite (report_key_unknown _ _ Hout) in Hp. cbn [snd] in Hp.
  unfold w'. rewrite Hp. cbn [fst snd].
  destruct (read_param_effect E MATRIXORBITAL_POLL_KEY_PRESS w)
    as (_ & _ & Hk & Hu & _).
  split; [reflexivity|].
  simpl. rewrite unknown_codes_app, reported_app, Hk, Hu. split; reflexivity.
Qed.

(** C4.  The answer 0x50, a code outside the table, is logged once as
    unknown and the tick ends after one read; but the driver goes on to
    report a press and a release of key 0, [KEY_RESERVED], a key that
    [matrixorbital_probe] never declares. *)
Theorem unknown_code_reports_reserved_key :
  option_map (fun w => (unknown_codes (trace w), reported (trace w), n_recv w))
             (matrixorbital_keypad_poll unknown_env 1 panel)
  = Some ([0x50], [(KEY_RESERVED, 1); (KEY_RESERVED, 0)], 1%nat) /\
  ~ In KEY_RESERVED (keybit panel).
Proof.
  split; [vm_compute; reflexivity|].
  simpl. unfold KEY_RESERVED, KEY_ESC, KEY_BACKSPACE, KEY_ENTER, KEY_UP,
    KEY_LEFT, KEY_RIGHT, KEY_DOWN. intuition discriminate.
Qed.

(** C5.  When [i2c_master_recv] returns 2, [matrixorbital_read_param]
    returns 2, not an error, and the poll loop takes it for a key code;
    when it returns 0, the result is the 0 of a byte 0x00 that was read. *)
Theorem read_param_returns_length_as_value :
  fst (matrixorbital_read_param two_byte_env MATRIXORBITAL_POLL_KEY_PRESS panel) = 2 /\
  option_map (fun w => reported (trace w))
             (matrixorbital_keypad_poll two_byte_env 1 panel)
  = Some [(KEY_RESERVED, 1); (KEY_RESERVED, 0)] /\
  fst (matrixorbital_read_param no_byte_env MATRIXORBITAL_POLL_KEY_PRESS panel) = 0 /\
  fst (matrixorbital_read_param idle_env MATRIXORBITAL_POLL_KEY_PRESS panel) = 0.
Proof. repeat split; vm_compute; reflexivity. Qed.

(** C8.  When the first [matrixorbital_read_param] of a tick gives an
    error (below 0) or 0, the tick ends after that one read and hands no
    key event to the input core. *)
Theorem poll_stops_without_event E w fuel :
  fst (matrixorbital_read_param E MATRIXORBITAL_POLL_KEY_PRESS w) <= 0 ->
  exists w',
    matrixorbital_keypad_poll E (S fuel) w = Some w' /\
    reported (trace w') = reported (trace w) /\
    n_recv w' = S (n_recv w).
Proof.
  intros Hr.
  exists (snd (matrixorbital_read_param E MATRIXORBITAL_POLL_KEY_PRESS w)).
  destruct (read_param_effect E MATRIXORBITAL_POLL_KEY_PRESS w)
    as (Hn & _ & Hk & _).
  rewrite keypad_poll_unroll, (poll_pass_idle _ _ Hr). cbn [fst snd].
  auto.
Qed.

Lemma poll_stops_without_event_witness :
  exists w',
    matrixorbital_keypad_poll idle_env 1 panel = Some w' /\
    reported (trace w') = [] /\ n_recv w' = 1%nat.
Proof.
  apply (poll_stops_without_event idle_env panel 0).
  vm_compute. discriminate.
Defined.

Lemma init_effect E w :
  let w' := snd (matrixorbital_init E w) in
  services (trace w') = services (trace w) /\
  par_width w' = par_width w /\ par_height w' = par_height w /\
  smem_len w' = smem_len w /\ screen_base w' = screen_base w.
Proof.
  unfold matrixorbital_init. unfold_commands. unfold_monad. simpl.
  split_branches; rewrite ?services_app; simpl; rewrite ?app_nil_r; auto.
Qed.

Lemma answered_app E (s t : list call) :
  forall n,
    answered E n (s ++ t)
    = answered E n s ++ answered E (n + length (sent s)) t.
Proof.
  induction s as [|c s IH]; intros n; simpl.
  - now rewrite Nat.add_0_r.
  - destruct c; simpl; rewrite IH; try reflexivity.
    now rewrite Nat.add_succ_r.
Qed.

(** The transmissions of [matrixorbital_init] with their answers. *)
Lemma init_answered E w :
  exists new,
    trace (snd (matrixorbital_init E w)) = trace w ++ new /\
    answered E (n_send w) new =
      [([0xFE; MATRIXORBITAL_TX_PROTOCOL_SELECT; 0],
        int (i2c_send_ret E (n_send w)));
       ([0xFE; MATRIXORBITAL_READ_MODULE_TYPE],
        int (i2c_send_ret E (1 + n_send w)));
       ([0xFE; MATRIXORBITAL_AUTO_TX_KEY_PRESS_OFF],
        int (i2c_send_ret E (2 + n_send w)));
       ([0xFE; MATRIXORBITAL_CLEAR_SCREEN],
        int (i2c_send_ret E (3 + n_send w)))] /\
    sent new =
      [[0xFE; MATRIXORBITAL_TX_PROTOCOL_SELECT; 0];
       [0xFE; MATRIXORBITAL_READ_MODULE_TYPE];
       [0xFE; MATRIXORBITAL_AUTO_TX_KEY_PRESS_OFF];
       [0xFE; MATRIXORBITAL_CLEAR_SCREEN]].
Proof.
  unfold matrixorbital_init. unfold_commands. unfold_monad. simpl.
  split_branches;
    (eexists; split; [rewrite <- ?app_assoc; reflexivity | split; reflexivity]).
Qed.

Lemma probe_after_init E :
  framebuffer_alloc_ok E = true ->
  get_free_pages_ok E = true ->
  devm_kzalloc_ok E = true ->
  u32 (refreshrate E) <> 0 ->
  exists rest,
    trace (snd (matrixorbital_probe E boot))
    = trace (snd (matrixorbital_init E (probed E))) ++ rest /\
    sent rest = [] /\
    (fst (matrixorbital_init E (probed E)) = 0 ->
     In RegisterFramebuffer (services rest)) /\
    (fst (matrixorbital_init E (probed E)) = 0 \/
     fst (matrixorbital_probe E boot)
     = Some (fst (matrixorbital_init E (probed E))) /\
     services rest = [FbDeferredIoCleanup; FramebufferRelease]).
Proof.
  intros Ha Hb Hc Hrate. apply Z.eqb_neq in Hrate.
  remember (matrixorbital_init E (probed E)) as res eqn:Hres.
  unfold matrixorbital_probe, panel_init_error, fb_alloc_error, err_free_dev,
    call_service, dev_err.
  unfold_monad. rewrite Ha, Hb, Hc. cbn [negb]. rewrite Hrate.
  match goal with
  | |- context [matrixorbital_init E ?x] => change x with (probed E)
  end.
  rewrite <- Hres. clear Hres.
  destruct res as [r w1]. cbn [fst snd] in *.
  destruct (Z.eqb_spec r 0) as [-> | Hne]; cbn [negb].
  - split_branches;
      (eexists; split; [rewrite <- ?app_assoc; reflexivity|];
       split; [reflexivity|]; split; [intros _; simpl; tauto | left; reflexivity]).
  - eexists. split; [simpl; rewrite <- ?app_assoc; reflexivity|].
    split; [reflexivity|]. split; [intros; contradiction|].
    right. split; reflexivity.
Qed.

(** C6.  [matrixorbital_init] makes four transmissions; the fourth is the
    clear-screen command FE 58, and init returns 0 exactly when that one
    is acknowledged with its length 2, and -1 otherwise; what the first
    three steps and the model read answer does not matter.  In
    [matrixorbital_probe] (allocations succeeding, the refresh rate not
    0) these are the only transmissions, the frame buffer is registered
    exactly when the clear-screen command is acknowledged, and otherwise
    the probe returns -1 having released what it had set up. *)
Theorem init_fails_iff_clear_screen_fails E w :
  (exists new a0 a1 a2 a3,
      trace (snd (matrixorbital_init E w)) = trace w ++ new /\
      answered E (n_send w) new =
        [([0xFE; MATRIXORBITAL_TX_PROTOCOL_SELECT; 0], a0);
         ([0xFE; MATRIXORBITAL_READ_MODULE_TYPE], a1);
         ([0xFE; MATRIXORBITAL_AUTO_TX_KEY_PRESS_OFF], a2);
         ([0xFE; MATRIXORBITAL_CLEAR_SCREEN], a3)] /\
      fst (matrixorbital_init E w) = (if a3 =? 2 then 0 else -1)) /\
  (fst (matrixorbital_init E w) = 0 <->
   int (i2c_send_ret E (3 + n_send w)) = 2) /\
  (fst (matrixorbital_init E w) = 0 \/ fst (matrixorbital_init E w) = -1) /\
  (framebuffer_alloc_ok E = true ->
   get_free_pages_ok E = true ->
   devm_kzalloc_ok E = true ->
   u32 (refreshrate E) <> 0 ->
   (exists a0 a1 a2 a3,
       answered E 0 (trace (snd (matrixorbital_probe E boot))) =
         [([0xFE; MATRIXORBITAL_TX_PROTOCOL_SELECT; 0], a0);
          ([0xFE; MATRIXORBITAL_READ_MODULE_TYPE], a1);
          ([0xFE; MATRIXORBITAL_AUTO_TX_KEY_PRESS_OFF], a2);
          ([0xFE; MATRIXORBITAL_CLEAR_SCREEN], a3)] /\
       (In RegisterFramebuffer
           (services (trace (snd (matrixorbital_probe E boot))))
        <-> a3 = 2) /\
       (a3 = 2 \/
        fst (matrixorbital_probe E boot) = Some (-1) /\
        services (trace (snd (matrixorbital_probe E boot)))
        = aborted_bring_up)) /\
   (In RegisterFramebuffer (services (trace (snd (matrixorbital_probe E boot))))
    <-> int (i2c_send_ret E 3) = 2) /\
   (int (i2c_send_ret E 3) = 2 \/
    fst (matrixorbital_probe E boot) = Some (-1) /\
    services (trace (snd (matrixorbital_probe E boot))) = aborted_bring_up)).
Proof.
  split; [|split; [|split]].
  - destruct (init_answered E w) as (new & Ht & Ha & _).
    exists new. do 4 eexists.
    split; [exact Ht|]. split; [exact Ha|]. apply init_result.
  - rewrite init_result.
    destruct (Z.eqb_spec (int (i2c_send_ret E (3 + n_send w))) 2); split;
      intros; try reflexivity; try assumption; try discriminate; contradiction.
  - rewrite init_result.
    destruct (int (i2c_send_ret E (3 + n_send w)) =? 2); auto.
  - intros Ha Hb Hc Hrate.
    destruct (probe_after_init E Ha Hb Hc Hrate)
      as (rest & Ht & Hsent & Hok & Hfail).
    destruct (init_answered E (probed E)) as (new & Htn & Han & Hsn).
    destruct (init_effect E (probed E)) as (Hs & _).
    pose proof (init_result E (probed E)) as Hr.
    change (3 + n_send (probed E))%nat with 3%nat in Hr.
    change (n_send (probed E)) with 0%nat in Han.
    assert (Hans : answered E 0 (trace (snd (matrixorbital_probe E boot)))
                   = answered E 0 new).
    { rewrite Ht, Htn, !answered_app. cbn [trace probed set_trace].
      cbn [answered sent length app Nat.add].
      assert (Hrest : forall n, answered E n rest = []).
      { clear - Hsent. induction rest as [|c rest IH]; intros n; [reflexivity|].
        destruct c; simpl in *; try apply IH; try assumption. discriminate. }
      rewrite Hrest, app_nil_r. reflexivity. }
    assert (Hsv : services (trace (snd (matrixorbital_probe E boot)))
                  = services (trace (probed E)) ++ services rest)
      by (rewrite Ht, services_app, Hs; reflexivity).
    assert (Hreg : In RegisterFramebuffer
                     (services (trace (snd (matrixorbital_probe E boot))))
                   <-> int (i2c_send_ret E 3) = 2).
    { rewrite Hsv.
      destruct (Z.eqb_spec (int (i2c_send_ret E 3)) 2) as [Heq | Hne].
      - split; [intros _; exact Heq|]. intros _.
        apply in_or_app. right. apply Hok, Hr.
      - split; [|intros; contradiction]. intros Hin.
        destruct Hfail as [Hz | (_ & Hrs)]; [rewrite Hr in Hz; discriminate|].
        rewrite Hrs in Hin. simpl in Hin. intuition discriminate. }
    assert (Hab : int (i2c_send_ret E 3) = 2 \/
                  fst (matrixorbital_probe E boot) = Some (-1) /\
                  services (trace (snd (matrixorbital_probe E boot)))
                  = aborted_bring_up).
    { destruct (Z.eqb_spec (int (i2c_send_ret E 3)) 2) as [Heq | Hne];
        [left; exact Heq | right].
      destruct Hfail as [Hz | (Hp & Hrs)]; [rewrite Hr in Hz; discriminate|].
      rewrite Hr in Hp. split; [exact Hp|].
      rewrite Hsv, Hrs. reflexivity. }
    split; [|split; [exact Hreg | exact Hab]].
    do 4 eexists. split; [rewrite Hans; exact Han|].
    split; [exact Hreg | exact Hab].
Qed.

Lemma init_fails_iff_clear_screen_fails_witness :
  fst (matrixorbital_init no_model_env panel) = 0 /\
  fst (matrixorbital_probe no_clear_env boot) = Some (-1) /\
  services (trace (snd (matrixorbital_probe no_clear_env boot))) = aborted_bring_up.
Proof.
  split.
  - pose proof (init_fails_iff_clear_screen_fails no_model_env panel)
      as (_ & H & _).
    apply H. reflexivity.
  - destruct (init_fails_iff_clear_screen_fails no_clear_env boot)
      as (_ & _ & _ & H).
    assert (Hrate : u32 (refreshrate no_clear_env) <> 0)
      by (vm_compute; discriminate).
    destruct (H eq_refl eq_refl eq_refl Hrate) as (_ & _ & [Hack | Hres]).
    + vm_compute in Hack. discriminate.
    + exact Hres.
Defined.

(** ** Display update *)

(** The length of the frame is 6 more than the number of passes of the
    loop, so every index the loop stores to is inside [data]. *)
Lemma frame_len_eq (width height : Z) :
  frame_len width height = 6 + u32 (height * width) / 8 /\
  0 <= u32 (height * width) / 8 < 2 ^ 29.
Proof.
  unfold frame_len. rewrite (Z.mul_comm width height).
  assert (Hx : 0 <= u32 (height * width) < 2 ^ 32)
    by (unfold u32, wrap; apply Z.mod_pos_bound; reflexivity).
  assert (Hq : 0 <= u32 (height * width) / 8 < 2 ^ 29).
  { split; [apply Z.div_pos; lia|].
    apply Z.div_lt_upper_bound; [lia|]. change (8 * 2 ^ 29) with (2 ^ 32). lia. }
  rewrite u32_small, int_small; lia.
Qed.

Lemma poke_middle (A B : list Z) (x v : Z) :
  poke (A ++ x :: B) (length A) v = A ++ v :: B.
Proof. induction A as [|a A IH]; simpl; [reflexivity | now rewrite IH]. Qed.

Lemma length_poke (l : list Z) (i : nat) (v : Z) : length (poke l i v) = length l.
Proof.
  revert i. induction l as [|a l IH]; intros [|i]; simpl; auto.
Qed.

(** The indices [i], [i + 1], ... the loop runs through. *)
Lemma copy_reversed_spec (vmem : list Z) (todo : nat) :
  forall (i : Z) (done rest : list Z),
    0 <= i ->
    length done = Z.to_nat (i + 6) ->
    copy_reversed vmem todo i (done ++ repeat 0 todo ++ rest)
    = done
      ++ map (fun k => reverse_bits_in_byte (peek vmem (i + Z.of_nat k))) (seq 0 todo)
      ++ rest.
Proof.
  induction todo as [|todo IH]; intros i done rest Hi Hlen.
  - reflexivity.
  - cbn [copy_reversed repeat app]. rewrite <- Hlen, poke_middle.
    change (done ++ ?x :: ?l) with (done ++ [x] ++ l).
    rewrite app_assoc, IH.
    + rewrite <- app_assoc. f_equal. cbn [seq map app]. f_equal.
      * now rewrite Z.add_0_r.
      * f_equal. rewrite <- seq_shift, map_map.
        apply map_ext. intros k. f_equal. f_equal. lia.
    + lia.
    + rewrite length_app, Hlen. simpl. lia.
Qed.

Lemma map_peek_seq (vmem : list Z) :
  map (fun k => peek vmem (0 + Z.of_nat k)) (seq 0 (length vmem)) = vmem.
Proof.
  apply nth_ext with (d := 0) (d' := 0).
  - now rewrite length_map, length_seq.
  - intros n Hn. rewrite length_map, length_seq in Hn.
    rewrite (nth_indep _ 0 (peek vmem (0 + Z.of_nat 0)))
      by now rewrite length_map, length_seq.
    rewrite (map_nth (fun k => peek vmem (0 + Z.of_nat k))), seq_nth by exact Hn.
    unfold peek. simpl. now rewrite Nat2Z.id.
Qed.

Lemma wire_frame_192x64 (vmem : list Z) :
  length vmem = 1536%nat ->
  wire_frame 192 64 vmem = header_192x64 ++ map reverse_bits_in_byte vmem.
Proof.
  intros Hlen. unfold wire_frame, bitmap_frame.
  change (Z.to_nat (frame_len 192 64)) with (6 + 1536)%nat.
  change (Z.to_nat (u32 (64 * 192) / 8)) with 1536%nat.
  rewrite repeat_app.
  change (repeat 0 6) with [0; 0; 0; 0; 0; 0].
  cbn [app poke].
  change (u8 192) with 192. change (u8 64) with 64.
  rewrite <- (app_nil_r (repeat 0 1536)).
  change (254 :: ?a :: 0 :: 0 :: 192 :: 64 :: ?l) with (header_192x64 ++ l).
  rewrite copy_reversed_spec by (try reflexivity; lia).
  rewrite app_nil_r. f_equal.
  rewrite <- Hlen, <- (map_map (fun k => peek vmem (0 + Z.of_nat k)) reverse_bits_in_byte).
  now rewrite map_peek_seq.
Qed.

Lemma firstn_frame_192x64 (vmem : list Z) :
  length vmem = 1536%nat ->
  firstn (Z.to_nat (frame_len 192 64)) (wire_frame 192 64 vmem)
  = wire_frame 192 64 vmem.
Proof.
  intros Hlen. apply firstn_all2.
  rewrite (wire_frame_192x64 _ Hlen), length_app, length_map, Hlen.
  change (Z.to_nat (frame_len 192 64)) with 1542%nat. simpl. lia.
Qed.

Lemma update_display_run E w :
  matrixorbitalfb_update_display E w =
  if kzalloc_ok E (n_kzalloc w)
  then (tt, snd (matrixorbital_write_array E
                   (wire_frame (par_width w) (par_height w) (screen_base w))
                   (frame_len (par_width w) (par_height w))
                   (set_n_kzalloc (S (n_kzalloc w)) w)))
  else (tt, set_n_kzalloc (S (n_kzalloc w)) w).
Proof.
  unfold matrixorbitalfb_update_display, kzalloc, wire_frame. unfold_monad.
  destruct (kzalloc_ok E (n_kzalloc w)); [|reflexivity].
  destruct (matrixorbital_write_array E _ _ _). reflexivity.
Qed.

Lemma write_array_effect E buf len w :
  let w' := snd (matrixorbital_write_array E buf len w) in
  sent (trace w') = sent (trace w) ++ [firstn (Z.to_nat len) buf] /\
  reported (trace w') = reported (trace w) /\
  screen_base w' = screen_base w /\ overrun w' = overrun w /\
  smem_len w' = smem_len w /\
  par_width w' = par_width w /\ par_height w' = par_height w /\
  n_kzalloc w' = n_kzalloc w /\ n_recv w' = n_recv w.
Proof.
  unfold_commands. unfold_monad. cbn [fst snd].
  destruct (negb _); cbn [snd trace set_trace set_n_send];
    rewrite ?sent_app, ?reported_app; cbn [sent reported];
    rewrite ?app_nil_r; repeat split; reflexivity.
Qed.

Lemma update_display_effect E w :
  let w' := snd (matrixorbitalfb_update_display E w) in
  sent (trace w') =
    sent (trace w) ++ (if kzalloc_ok E (n_kzalloc w) then [frame_of w] else []) /\
  reported (trace w') = reported (trace w) /\
  screen_base w' = screen_base w /\ overrun w' = overrun w /\
  smem_len w' = smem_len w /\
  par_width w' = par_width w /\ par_height w' = par_height w /\
  n_recv w' = n_recv w.
Proof.
  rewrite update_display_run.
  destruct (kzalloc_ok E (n_kzalloc w)); cbn [snd].
  - destruct (write_array_effect E
                (wire_frame (par_width w) (par_height w) (screen_base w))
                (frame_len (par_width w) (par_height w))
                (set_n_kzalloc (S (n_kzalloc w)) w))
      as (Hs & Hk & Hm & Ho & Hl & Hw & Hh & _ & Hr).
    rewrite Hs, Hk, Hm, Ho, Hl, Hw, Hh, Hr. repeat split; reflexivity.
  - rewrite app_nil_r. repeat split; reflexivity.
Qed.

(** Bit [j] of the reversed byte is bit [7 - j] of the byte. *)
Lemma reverse_bits_mirror (b j : Z) :
  is_byte b -> 0 <= j < 8 ->
  Z.testbit (reverse_bits_in_byte b) j = Z.testbit b (7 - j).
Proof.
  intros Hb Hj.
  pose (P := fun b =>
    forallb (fun j => Bool.eqb (Z.testbit (reverse_bits_in_byte b) j)
                               (Z.testbit b (7 - j)))
            [0; 1; 2; 3; 4; 5; 6; 7]).
  assert (HP : P b = true) by (apply byte_cases; [vm_compute; reflexivity | exact Hb]).
  unfold P in HP. rewrite forallb_forall in HP.
  apply Bool.eqb_prop, HP. simpl. lia.
Qed.

(** C2.  With the 192 x 64 geometry and its 1536 bytes of screen memory,
    the display update transmits one frame of 6 + 192 * 64 / 8 = 1542
    bytes; it begins with FE 64 00 00 C0 40, and the byte at offset
    [6 + i] is the bit reversal of byte [i] of the screen memory, as many
    bytes after the header as there are in the screen memory: bit [j] of
    the byte at [6 + i] is bit [7 - j] of byte [i], and reversing the bits
    of the payload gives the screen memory back. *)
Theorem frame_of_192x64 E w :
  par_width w = 192 -> par_height w = 64 ->
  length (screen_base w) = 1536%nat ->
  kzalloc_ok E (n_kzalloc w) = true ->
  exists frame,
    sent (trace (snd (matrixorbitalfb_update_display E w))) = sent (trace w) ++ [frame] /\
    Z.of_nat (length frame) = 6 + 192 * 64 / 8 /\
    length frame = 1542%nat /\
    firstn 6 frame = [0xFE; 0x64; 0; 0; 192; 64] /\
    length (skipn 6 frame) = length (screen_base w) /\
    (forall i, (i < 1536)%nat ->
       nth (6 + i) frame 0 = reverse_bits_in_byte (nth i (screen_base w) 0)) /\
    (forall i j, (i < 1536)%nat -> 0 <= j < 8 ->
       is_byte (nth i (screen_base w) 0) ->
       Z.testbit (nth (6 + i) frame 0) j
       = Z.testbit (nth i (screen_base w) 0) (7 - j)) /\
    (Forall is_byte (screen_base w) ->
     map reverse_bits_in_byte (skipn 6 frame) = screen_base w).
Proof.
  intros Hw Hh Hlen Hk.
  exists (header_192x64 ++ map reverse_bits_in_byte (screen_base w)).
  destruct (update_display_effect E w) as (Hs & _).
  rewrite Hs, Hk. unfold frame_of. rewrite Hw, Hh.
  rewrite (firstn_frame_192x64 _ Hlen), (wire_frame_192x64 _ Hlen).
  assert (Hl : length (header_192x64 ++ map reverse_bits_in_byte (screen_base w))
               = 1542%nat)
    by (rewrite length_app, length_map, Hlen; reflexivity).
  assert (Hnth : forall i, (i < 1536)%nat ->
            nth (6 + i) (header_192x64 ++ map reverse_bits_in_byte (screen_base w)) 0
            = reverse_bits_in_byte (nth i (screen_base w) 0)).
  { intros i Hi.
    rewrite app_nth2 by (simpl; lia).
    replace (6 + i - length header_192x64)%nat with i by (simpl; lia).
    rewrite (nth_indep _ 0 (reverse_bits_in_byte 0)) by (rewrite length_map; lia).
    apply map_nth. }
  split; [reflexivity|]. split; [rewrite Hl; reflexivity|].
  split; [exact Hl|]. split; [reflexivity|].
  split; [|split; [exact Hnth|split]].
  - change 6%nat with (length header_192x64) at 1.
    rewrite skipn_app, Nat.sub_diag, skipn_all. simpl. apply length_map.
  - intros i j Hi Hj Hb. rewrite (Hnth i Hi). apply reverse_bits_mirror; assumption.
  - intros Hbytes. cbn [skipn header_192x64 app].
    clear - Hbytes. induction Hbytes as [|b l Hb _ IH]; [reflexivity|].
    cbn [map]. rewrite IH. f_equal.
    apply Z.eqb_eq.
    apply (byte_cases (fun b => reverse_bits_in_byte (reverse_bits_in_byte b) =? b));
      [vm_compute; reflexivity | exact Hb].
Qed.

Lemma frame_of_192x64_witness :
  exists frame,
    sent (trace (snd (matrixorbitalfb_update_display drawing_env patterned)))
    = [frame] /\
    length frame = 1542%nat /\
    firstn 6 frame = [0xFE; 0x64; 0; 0; 192; 64] /\
    nth 6 frame 0 = 0x80 /\ nth 7 frame 0 = 0x01 /\
    nth 8 frame 0 = 0x0F /\ nth 9 frame 0 = 0xAA /\
    Z.testbit (nth 6 frame 0) 7 = true /\
    Z.testbit (nth 6 frame 0) 0 = false.
Proof.
  destruct (frame_of_192x64 drawing_env patterned eq_refl eq_refl eq_refl eq_refl)
    as (frame & Hs & _ & Hl & Hh & _ & Hn & Hb & _).
  exists frame.
  split; [exact Hs|]. split; [exact Hl|]. split; [exact Hh|].
  change (nth 6 frame 0) with (nth (6 + 0) frame 0).
  change (nth 7 frame 0) with (nth (6 + 1) frame 0).
  change (nth 8 frame 0) with (nth (6 + 2) frame 0).
  change (nth 9 frame 0) with (nth (6 + 3) frame 0).
  assert (Hbyte : is_byte (nth 0 (screen_base patterned) 0))
    by (unfold is_byte; simpl; lia).
  rewrite (Hb 0%nat 7 ltac:(lia) ltac:(lia) Hbyte).
  rewrite (Hb 0%nat 0 ltac:(lia) ltac:(lia) Hbyte).
  rewrite !Hn by lia.
  repeat split; reflexivity.
Defined.

Lemma write_run E ubuf count ppos w :
  matrixorbitalfb_write E ubuf count ppos w =
  if smem_len w <? ulong ppos then (- EINVAL, ppos, w)
  else
    let c := clamp_count (smem_len w) (ulong ppos) count in
    if c =? 0 then (- EINVAL, ppos, w)
    else
      let w1 := snd (copy_from_user (ulong ppos) ubuf c w) in
      if negb (c - Z.min c (Z.of_nat (length ubuf)) =? 0)
      then (- EFAULT, ppos, w1)
      else (s64 c, s64 (ppos + c), snd (matrixorbitalfb_update_display E w1)).
Proof.
  unfold matrixorbitalfb_write. unfold_monad.
  destruct (smem_len w <? ulong ppos); [reflexivity|].
  cbv zeta.
  destruct (clamp_count (smem_len w) (ulong ppos) count =? 0); [reflexivity|].
  unfold copy_from_user at 1. cbn [fst snd].
  destruct (negb _); [reflexivity|].
  destruct (matrixorbitalfb_update_display E _). reflexivity.
Qed.

Lemma store_block_inside (mem bytes : list Z) (off : Z) :
  0 <= off ->
  off + Z.of_nat (length bytes) <= Z.of_nat (length mem) ->
  exists mem',
    store_block mem off bytes = Some mem' /\
    length mem' = length mem /\
    forall i, 0 <= i < off \/ off + Z.of_nat (length bytes) <= i ->
              peek mem' i = peek mem i.
Proof.
  intros Hoff Hfit. unfold store_block.
  destruct (Z.leb_spec (off + Z.of_nat (length bytes)) (Z.of_nat (length mem)));
    [|lia].
  eexists. split; [reflexivity|]. split.
  - rewrite !length_app, length_firstn, length_skipn. lia.
  - intros i Hi. unfold peek.
    destruct (Z_lt_le_dec i off) as [Hlt | Hge].
    + rewrite app_nth1 by (rewrite length_firstn; lia).
      rewrite nth_firstn.
      destruct (Nat.ltb_spec (Z.to_nat i) (Z.to_nat off)); [reflexivity | lia].
    + assert (Hi' : off + Z.of_nat (length bytes) <= i) by lia.
      rewrite app_assoc, app_nth2
        by (rewrite length_app, length_firstn; lia).
      rewrite length_app, length_firstn, nth_skipn. f_equal. lia.
Qed.

Lemma copy_from_user_inside (off : Z) (ubuf : list Z) (c : Z) (w : world) :
  0 <= off -> 0 <= c ->
  off + c <= Z.of_nat (length (screen_base w)) ->
  let w' := snd (copy_from_user off ubuf c w) in
  overrun w' = overrun w /\
  length (screen_base w') = length (screen_base w) /\
  smem_len w' = smem_len w /\
  (forall i, 0 <= i < off \/ off + c <= i ->
             peek (screen_base w') i = peek (screen_base w) i).
Proof.
  intros Hoff Hc Hfit. unfold copy_from_user. cbn [snd].
  set (n := Z.min c (Z.of_nat (length ubuf))).
  set (bytes := firstn (Z.to_nat n) ubuf ++ repeat 0 (Z.to_nat (c - n))).
  assert (Hb : Z.of_nat (length bytes) = c).
  { unfold bytes. rewrite length_app, length_firstn, repeat_length. unfold n. lia. }
  destruct (store_block_inside (screen_base w) bytes off Hoff) as (mem' & Hs & Hl & Hp);
    [lia|].
  rewrite Hs. cbn. rewrite Hb in Hp. auto.
Qed.

Lemma clamp_count_fits (total p count : Z) :
  0 <= total < 2 ^ 32 -> 0 <= p <= total -> 0 <= count <= LLONG_MAX ->
  p <= LLONG_MAX ->
  let c := clamp_count total p count in
  0 <= c /\ p + c <= total /\
  (total < p + count -> c = total - p) /\
  (p + count <= total -> c = count).
Proof.
  intros Ht Hp Hc Hm. unfold clamp_count, LLONG_MAX in *.
  rewrite ulong_small by lia.
  destruct (Z.ltb_spec total (count + p)).
  - rewrite ulong_small by lia. lia.
  - lia.
Qed.

(** C10.  A raw write at position [ppos] of [count] bytes, both within
    the non-negative range of [loff_t] and [ssize_t]: past the end of the
    buffer it is rejected with -EINVAL and nothing changes; a count
    reaching past the end is cut to [total_size - ppos]; a count of zero
    after that is rejected with -EINVAL and nothing changes; no store
    runs past the end, the length of the buffer stays, and only the bytes
    from [ppos] to the smaller of [ppos + count] and [total_size] can
    change. *)
Theorem raw_write_stays_inside E ubuf count ppos w :
  smem_len w = Z.of_nat (length (screen_base w)) ->
  smem_len w < 2 ^ 32 ->
  0 <= ppos <= LLONG_MAX ->
  0 <= count <= LLONG_MAX ->
  let total_size := smem_len w in
  let r := fst (fst (matrixorbitalfb_write E ubuf count ppos w)) in
  let w' := snd (matrixorbitalfb_write E ubuf count ppos w) in
  (total_size < ppos -> r = - EINVAL /\ w' = w) /\
  (ppos <= total_size -> total_size < ppos + count ->
   clamp_count total_size (ulong ppos) count = total_size - ppos /\
   (r = - EINVAL \/ r = - EFAULT \/ r = total_size - ppos)) /\
  (ppos <= total_size -> clamp_count total_size (ulong ppos) count = 0 ->
   r = - EINVAL /\ w' = w) /\
  overrun w' = overrun w /\
  length (screen_base w') = length (screen_base w) /\
  smem_len w' = smem_len w /\
  (forall i, 0 <= i < ppos \/ Z.min (ppos + count) total_size <= i ->
             peek (screen_base w') i = peek (screen_base w) i).
Proof.
  intros Hlen Hsz Hpos Hcount total_size r w'.
  unfold r, w'. rewrite write_run. unfold LLONG_MAX in *.
  rewrite (ulong_small ppos) by lia. fold total_size.
  destruct (Z.ltb_spec total_size ppos) as [Hpast | Hin]; cbn [fst snd].
  { repeat split; auto; lia. }
  assert (Hl : 0 <= total_size < 2 ^ 32) by (unfold total_size; lia).
  destruct (clamp_count_fits total_size ppos count Hl) as (Hc0 & Hfit & Hcut & Hall);
    [lia | unfold LLONG_MAX; lia | unfold LLONG_MAX; lia |].
  set (c := clamp_count total_size ppos count) in *. cbv zeta.
  destruct (Z.eqb_spec c 0) as [Hzero | Hnz]; cbn [fst snd].
  { repeat split; auto; lia. }
  destruct (copy_from_user_inside ppos ubuf c w) as (Ho & Hm & Hs & Hp);
    [lia | lia | unfold total_size in Hfit; lia |].
  set (w1 := snd (copy_from_user ppos ubuf c w)) in *.
  assert (Hout : forall i, 0 <= i < ppos \/ Z.min (ppos + count) total_size <= i ->
                           peek (screen_base w1) i = peek (screen_base w) i).
  { intros i Hi. apply Hp.
    destruct (Z_lt_le_dec total_size (ppos + count)) as [Hover | Hunder].
    - rewrite (Hcut Hover). lia.
    - rewrite (Hall Hunder). lia. }
  destruct (negb _); cbn [fst snd].
  - split; [intros; lia|]. split; [intros _ Hover; auto|].
    split; [intros; lia|]. auto.
  - destruct (update_display_effect E w1) as (_ & _ & Hm2 & Ho2 & Hs2 & _).
    rewrite Hm2, Ho2, Hs2.
    split; [intros; lia|]. split.
    + intros _ Hover. split; [auto|]. right. right.
      rewrite s64_small by lia. auto.
    + split; [intros; lia|]. auto.
Qed.

Lemma raw_write_stays_inside_witness :
  fst (fst (matrixorbitalfb_write drawing_env [1; 2; 3] 3 1534 panel)) = - EINVAL
  \/ fst (fst (matrixorbitalfb_write drawing_env [1; 2; 3] 3 1534 panel)) = - EFAULT
  \/ fst (fst (matrixorbitalfb_write drawing_env [1; 2; 3] 3 1534 panel)) = 1536 - 1534.
Proof.
  assert (H1 : smem_len panel = Z.of_nat (length (screen_base panel)))
    by reflexivity.
  assert (H2 : smem_len panel < 2 ^ 32) by reflexivity.
  assert (H3 : 0 <= 1534 <= LLONG_MAX) by (unfold LLONG_MAX; lia).
  assert (H4 : 0 <= 3 <= LLONG_MAX) by (unfold LLONG_MAX; lia).
  pose proof (raw_write_stays_inside drawing_env [1; 2; 3] 3 1534 panel H1 H2 H3 H4)
    as (_ & Hcut & _).
  apply Hcut; simpl; lia.
Defined.

Lemma copy_from_user_frame (off : Z) (ubuf : list Z) (c : Z) (w : world) :
  let w' := snd (copy_from_user off ubuf c w) in
  trace w' = trace w /\ smem_len w' = smem_len w /\
  par_width w' = par_width w /\ par_height w' = par_height w /\
  n_kzalloc w' = n_kzalloc w.
Proof.
  unfold copy_from_user. cbn [snd].
  destruct (store_block _ _ _); repeat split; reflexivity.
Qed.

Lemma frame_of_ext (w w' : world) :
  par_width w' = par_width w -> par_height w' = par_height w ->
  screen_base w' = screen_base w -> frame_of w' = frame_of w.
Proof. intros Hw Hh Hm. unfold frame_of. now rewrite Hw, Hh, Hm. Qed.

Lemma update_display_flushes E w :
  (forall n, kzalloc_ok E n = true) ->
  let w' := snd (matrixorbitalfb_update_display E w) in
  sent (trace w') = sent (trace w) ++ [frame_of w'] /\
  smem_len w' = smem_len w.
Proof.
  intros Hk w'.
  destruct (update_display_effect E w) as (Hs & _ & Hm & _ & Hl & Hw & Hh & _).
  fold w' in Hs, Hm, Hl, Hw, Hh.
  rewrite Hk in Hs. rewrite (frame_of_ext w w') by assumption. auto.
Qed.

Lemma draw_effect E op w :
  (forall n, kzalloc_ok E n = true) ->
  let w' := snd (draw E op w) in
  sent (trace w') =
    sent (trace w)
    ++ (if reaches_update (smem_len w) op then [frame_of w'] else []) /\
  smem_len w' = smem_len w.
Proof.
  intros Hk. destruct op as [ubuf count ppos | rect | area | image];
    unfold draw;
    [ | unfold matrixorbitalfb_fillrect
      | unfold matrixorbitalfb_copyarea
      | unfold matrixorbitalfb_imageblit ].
  - assert (Hsnd : snd ((matrixorbitalfb_write E ubuf count ppos ;; ret tt) w)
                   = snd (matrixorbitalfb_write E ubuf count ppos w))
      by (unfold bind, ret; destruct (matrixorbitalfb_write E ubuf count ppos w);
          reflexivity).
    rewrite Hsnd. clear Hsnd. rewrite write_run. unfold reaches_update.
    destruct (smem_len w <? ulong ppos); cbn [negb andb snd];
      [rewrite app_nil_r; auto|].
    cbv zeta.
    destruct (clamp_count (smem_len w) (ulong ppos) count =? 0);
      cbn [negb andb snd]; [rewrite app_nil_r; auto|].
    destruct (copy_from_user_frame (ulong ppos) ubuf
                (clamp_count (smem_len w) (ulong ppos) count) w)
      as (Ht & Hl & _).
    destruct (_ - _ =? 0); cbn [negb snd].
    + destruct (update_display_flushes E
                  (snd (copy_from_user (ulong ppos) ubuf
                          (clamp_count (smem_len w) (ulong ppos) count) w)) Hk)
        as (Hs & Hl2).
      rewrite Hs, Hl2, Ht, Hl. auto.
    + rewrite Ht, Hl, app_nil_r. auto.
  - unfold bind, modify. cbn [reaches_update].
    apply (update_display_flushes E (set_screen _ w) Hk).
  - unfold bind, modify. cbn [reaches_update].
    apply (update_display_flushes E (set_screen _ w) Hk).
  - unfold bind, modify. cbn [reaches_update].
    apply (update_display_flushes E (set_screen _ w) Hk).
Qed.

Lemma draw_all_cons E op ops w :
  snd (draw_all E (op :: ops) w) = snd (draw_all E ops (snd (draw E op w))).
Proof.
  cbn [draw_all]. unfold bind. destruct (draw E op w). reflexivity.
Qed.

(** C1, as amended.  Allocations succeeding, every drawing call that
    reaches the display update transmits one frame at once, the frame of
    the whole surface as that call left it: [n] such calls make [n]
    transmissions, in order.  One call of the deferred-I/O handler
    transmits one frame of the surface. *)
Theorem every_draw_flushes E ops w :
  (forall n, kzalloc_ok E n = true) ->
  sent (trace (snd (draw_all E ops w))) = sent (trace w) ++ frames_after E ops w /\
  length (frames_after E ops w)
  = length (filter (reaches_update (smem_len w)) ops) /\
  sent (trace (snd (matrixorbitalfb_deferred_io E w)))
  = sent (trace w) ++ [frame_of w].
Proof.
  intros Hk. split; [|split].
  - revert w. induction ops as [|op ops IH]; intros w.
    + simpl. now rewrite app_nil_r.
    + rewrite draw_all_cons, IH. cbn [frames_after].
      destruct (draw_effect E op w Hk) as (Hs & _).
      rewrite Hs, <- app_assoc. reflexivity.
  - revert w. induction ops as [|op ops IH]; intros w; [reflexivity|].
    cbn [frames_after filter]. rewrite length_app, IH.
    destruct (draw_effect E op w Hk) as (_ & Hl). rewrite Hl.
    destruct (reaches_update (smem_len w) op); reflexivity.
  - unfold matrixorbitalfb_deferred_io.
    destruct (update_display_effect E w) as (Hs & _).
    now rewrite Hs, Hk.
Qed.

Lemma every_draw_flushes_witness :
  length (sent (trace (snd (draw_all drawing_env
                              [FillRect white; RawWrite [1; 2; 3] 3 0; FillRect black]
                              panel)))) = 3%nat.
Proof.
  destruct (every_draw_flushes drawing_env
              [FillRect white; RawWrite [1; 2; 3] 3 0; FillRect black] panel
              (fun _ => eq_refl)) as (Hs & Hn & _).
  rewrite Hs, length_app, Hn. reflexivity.
Defined.

(** C1 as stated fails: two fills with nothing in between make two
    transmissions, the first of the white surface, the second of the
    black one. *)
Lemma two_draws_two_flushes :
  sent (trace (snd (draw_all drawing_env [FillRect white; FillRect black] panel)))
  = [header_192x64 ++ repeat 0xFF 1536; header_192x64 ++ repeat 0 1536] /\
  length (sent (trace (snd (draw_all drawing_env [FillRect white; FillRect black]
                              panel)))) <> 1%nat.
Proof.
  split; [vm_compute; reflexivity|].
  vm_compute. discriminate.
Qed.

(** C9.  Whatever the bus and the allocator answer, a raw write returns
    the same value and leaves the same file position, and a write that
    reaches the display update returns its count; every drawing call
    leaves the same surface, and reports nothing to the input core. *)
Theorem flush_outcome_invisible E acks allocs w :
  (forall ubuf count ppos,
      fst (matrixorbitalfb_write (with_bus acks allocs E) ubuf count ppos w)
      = fst (matrixorbitalfb_write E ubuf count ppos w)) /\
  (forall ubuf count ppos,
      reaches_update (smem_len w) (RawWrite ubuf count ppos) = true ->
      fst (matrixorbitalfb_write (with_bus acks allocs E) ubuf count ppos w)
      = (s64 (clamp_count (smem_len w) (ulong ppos) count),
         s64 (ppos + clamp_count (smem_len w) (ulong ppos) count))) /\
  (forall op,
      screen_base (snd (draw (with_bus acks allocs E) op w))
      = screen_base (snd (draw E op w)) /\
      overrun (snd (draw (with_bus acks allocs E) op w))
      = overrun (snd (draw E op w)) /\
      reported (trace (snd (draw (with_bus acks allocs E) op w)))
      = reported (trace (snd (draw E op w)))).
Proof.
  assert (Hwrite : forall E1 E2 ubuf count ppos,
    fst (matrixorbitalfb_write E1 ubuf count ppos w)
    = fst (matrixorbitalfb_write E2 ubuf count ppos w) /\
    screen_base (snd (matrixorbitalfb_write E1 ubuf count ppos w))
    = screen_base (snd (matrixorbitalfb_write E2 ubuf count ppos w)) /\
    overrun (snd (matrixorbitalfb_write E1 ubuf count ppos w))
    = overrun (snd (matrixorbitalfb_write E2 ubuf count ppos w)) /\
    reported (trace (snd (matrixorbitalfb_write E1 ubuf count ppos w)))
    = reported (trace (snd (matrixorbitalfb_write E2 ubuf count ppos w)))).
  { intros E1 E2 ubuf count ppos. rewrite !write_run.
    destruct (smem_len w <? ulong ppos); [auto|]. cbv zeta.
    destruct (_ =? 0); [auto|].
    destruct (negb _); [auto|]. cbn [fst snd].
    set (w1 := snd (copy_from_user _ _ _ _)).
    destruct (update_display_effect E1 w1) as (_ & Hk1 & Hm1 & Ho1 & _).
    destruct (update_display_effect E2 w1) as (_ & Hk2 & Hm2 & Ho2 & _).
    rewrite Hk1, Hm1, Ho1, Hk2, Hm2, Ho2. auto. }
  split; [|split].
  - intros. apply Hwrite.
  - intros ubuf count ppos Hr. rewrite write_run.
    unfold reaches_update in Hr.
    destruct (smem_len w <? ulong ppos); [discriminate|]. cbv zeta.
    destruct (clamp_count (smem_len w) (ulong ppos) count =? 0); [discriminate|].
    cbn [negb andb] in Hr. rewrite Hr. reflexivity.
  - intros op. destruct op as [ubuf count ppos | rect | area | image]; unfold draw.
    + unfold bind, ret.
      destruct (Hwrite (with_bus acks allocs E) E ubuf count ppos) as (_ & H).
      destruct (matrixorbitalfb_write (with_bus acks allocs E) ubuf count ppos w).
      destruct (matrixorbitalfb_write E ubuf count ppos w). exact H.
    + unfold matrixorbitalfb_fillrect, bind, modify.
      destruct (update_display_effect (with_bus acks allocs E)
                  (set_screen (sys_fillrect (with_bus acks allocs E) rect
                                 (screen_base w)) w))
        as (_ & Hk1 & Hm1 & Ho1 & _).
      destruct (update_display_effect E
                  (set_screen (sys_fillrect E rect (screen_base w)) w))
        as (_ & Hk2 & Hm2 & Ho2 & _).
      rewrite Hk1, Hm1, Ho1, Hk2, Hm2, Ho2. auto.
    + unfold matrixorbitalfb_copyarea, bind, modify.
      destruct (update_display_effect (with_bus acks allocs E)
                  (set_screen (sys_copyarea (with_bus acks allocs E) area
                                 (screen_base w)) w))
        as (_ & Hk1 & Hm1 & Ho1 & _).
      destruct (update_display_effect E
                  (set_screen (sys_copyarea E area (screen_base w)) w))
        as (_ & Hk2 & Hm2 & Ho2 & _).
      rewrite Hk1, Hm1, Ho1, Hk2, Hm2, Ho2. auto.
    + unfold matrixorbitalfb_imageblit, bind, modify.
      destruct (update_display_effect (with_bus acks allocs E)
                  (set_screen (sys_imageblit (with_bus acks allocs E) image
                                 (screen_base w)) w))
        as (_ & Hk1 & Hm1 & Ho1 & _).
      destruct (update_display_effect E
                  (set_screen (sys_imageblit E image (screen_base w)) w))
        as (_ & Hk2 & Hm2 & Ho2 & _).
      rewrite Hk1, Hm1, Ho1, Hk2, Hm2, Ho2. auto.
Qed.

Lemma flush_outcome_invisible_witness :
  fst (matrixorbitalfb_write
         (with_bus (fun _ => -121) (fun _ => true) drawing_env) [1; 2; 3] 3 0 panel)
  = (3, 3).
Proof.
  destruct (flush_outcome_invisible drawing_env (fun _ => -121) (fun _ => true) panel)
    as (_ & H & _).
  rewrite (H [1; 2; 3] 3 0 eq_refl). reflexivity.
Defined.

(** ** Command helpers *)

Lemma logged_app (s t : list call) : logged (s ++ t) = logged s ++ logged t.
Proof.
  induction s as [|c s IH]; simpl; [reflexivity|].
  destruct c; simpl; rewrite IH; reflexivity.
Qed.

Lemma write_array_run E buf len w :
  0 <= len < 2 ^ 31 ->
  let ack := int (i2c_send_ret E (n_send w)) in
  matrixorbital_write_array E buf len w =
  (if ack =? len then 0 else -1,
   set_n_send (S (n_send w))
     (set_trace (trace w ++ I2cMasterSend (firstn (Z.to_nat len) buf)
                 :: (if ack =? len then [] else [Log MsgCouldntSend])) w)).
Proof.
  intros Hlen ack. unfold matrixorbital_write_array, i2c_master_send, dev_err.
  unfold_monad. cbn [fst snd].
  rewrite (u32_int_eqb _ len Hlen). fold ack.
  destruct (ack =? len); cbn [negb]; [reflexivity|].
  unfold set_trace, set_n_send. cbn. rewrite <- app_assoc. reflexivity.
Qed.

(** X1.  [matrixorbital_write_array] hands the first [len] bytes to the
    bus once.  It returns 0 when [i2c_master_send] returns [len]; for
    every other value, an error or a short count, it logs the failure
    once and returns -1. *)
Theorem write_array_outcome E buf len w :
  0 <= len < 2 ^ 31 ->
  let ack := int (i2c_send_ret E (n_send w)) in
  matrixorbital_write_array E buf len w =
  (if ack =? len then 0 else -1,
   set_n_send (S (n_send w))
     (set_trace (trace w ++ I2cMasterSend (firstn (Z.to_nat len) buf)
                 :: (if ack =? len then [] else [Log MsgCouldntSend])) w)).
Proof. exact (write_array_run E buf len w). Qed.

Lemma write_array_outcome_witness :
  fst (matrixorbital_write_array dead_bus_env [0xFE; 0x58] 2 panel) = -1 /\
  trace (snd (matrixorbital_write_array dead_bus_env [0xFE; 0x58] 2 panel))
  = [I2cMasterSend [0xFE; 0x58]; Log MsgCouldntSend].
Proof.
  assert (H : 0 <= 2 < 2 ^ 31) by lia.
  rewrite (write_array_outcome dead_bus_env [0xFE; 0x58] 2 panel H).
  split; reflexivity.
Defined.

Lemma read_param_run E cmd w :
  let acked := int (i2c_send_ret E (n_send w)) =? 2 in
  let v := fst (matrixorbital_read_param E cmd w) in
  trace (snd (matrixorbital_read_param E cmd w))
  = trace w ++ I2cMasterSend [0xFE; cmd]
    :: (if acked then [] else [Log MsgCouldntSend])
    ++ [Msleep 5; I2cMasterRecv 1] /\
  v = answer_value E (n_recv w) /\
  (v < 0 \/ 0 <= v < 256 \/ int (fst (i2c_recv_ret E (n_recv w))) = v).
Proof.
  intros acked v. split; [|split].
  - unfold matrixorbital_read_param, matrixorbital_write_cmd. unfold bind at 1.
    rewrite write_array_run by lia. fold acked.
    unfold msleep, i2c_master_recv. unfold_monad. cbn [fst snd].
    destruct (i2c_recv_ret E _) as [r d]. cbn.
    destruct acked; cbn; rewrite <- !app_assoc; reflexivity.
  - unfold v. rewrite read_param_result. reflexivity.
  - unfold v. rewrite read_param_result.
    destruct (int (fst (i2c_recv_ret E (n_recv w))) =? 1).
    + right. left. unfold u8, wrap. apply Z.mod_pos_bound. reflexivity.
    + right. right. reflexivity.
Qed.

(** X2.  [matrixorbital_read_param] sends the command, sleeps 5 ms and
    receives one byte, also when the command was not acknowledged (then
    with one log entry before the sleep).  Its value is an error below 0,
    or a byte, or the count [i2c_master_recv] returned. *)
Theorem read_param_always_receives E cmd w :
  let acked := int (i2c_send_ret E (n_send w)) =? 2 in
  let v := fst (matrixorbital_read_param E cmd w) in
  trace (snd (matrixorbital_read_param E cmd w))
  = trace w ++ I2cMasterSend [0xFE; cmd]
    :: (if acked then [] else [Log MsgCouldntSend])
    ++ [Msleep 5; I2cMasterRecv 1] /\
  v = answer_value E (n_recv w) /\
  (v < 0 \/ 0 <= v < 256 \/ int (fst (i2c_recv_ret E (n_recv w))) = v).
Proof. exact (read_param_run E cmd w). Qed.

(** X3.  Whatever the bus answers, [matrixorbital_init] makes its four
    transmissions in order (protocol select with value 0, read module
    type, key auto-transmit off, clear screen) and receives once; it logs
    the module type with whatever the read returned and reports no key. *)
Theorem init_sends_all_four E w :
  let w' := snd (matrixorbital_init E w) in
  sent (trace w') =
    sent (trace w)
    ++ [[0xFE; MATRIXORBITAL_TX_PROTOCOL_SELECT; 0];
        [0xFE; MATRIXORBITAL_READ_MODULE_TYPE];
        [0xFE; MATRIXORBITAL_AUTO_TX_KEY_PRESS_OFF];
        [0xFE; MATRIXORBITAL_CLEAR_SCREEN]] /\
  n_send w' = (4 + n_send w)%nat /\
  n_recv w' = S (n_recv w) /\
  In (MsgModuleType (answer_value E (n_recv w))) (logged (trace w')) /\
  reported (trace w') = reported (trace w).
Proof.
  unfold matrixorbital_init, answer_value. unfold_commands. unfold_monad. simpl.
  split_branches;
    rewrite ?sent_app, ?logged_app, ?reported_app; simpl;
    rewrite ?app_nil_r, <- ?app_assoc; simpl;
    repeat split; try reflexivity;
    rewrite ?in_app_iff; simpl; tauto.
Qed.

(** ** Keypad *)

Lemma report_key_run code w :
  let key := lookup_key translation_table code in
  matrixorbital_report_key code w =
  (tt, set_trace
         (trace w
          ++ (if existsb (fun e => fst e =? code) translation_table
              then [] else [Log (MsgUnknownKeycode code)])
          ++ [Log (MsgReportKey key code); InputReportKey key 1; InputSync;
              InputReportKey key 0; InputSync]) w) /\
  (key = KEY_RESERVED \/ In key (keybit panel)).
Proof.
  cbv zeta. split.
  - unfold matrixorbital_report_key. unfold_commands. unfold_monad.
    cbn [lookup_key translation_table existsb fst].
    rewrite !(Z.eqb_sym _ code).
    repeat match goal with
           | |- context [code =? ?c] => destruct (Z.eqb_spec code c) as [-> | _]
           end;
      cbn; unfold set_trace; cbn; rewrite <- ?app_assoc; reflexivity.
  - cbn [lookup_key translation_table].
    repeat match goal with
           | |- context [code =? ?c] => destruct (Z.eqb_spec code c) as [-> | _]
           end; cbn; tauto.
Qed.

(** X14.  For every code, [matrixorbital_report_key] reports one press
    and then one release of the same key, each followed by a sync: the
    key of the table, or key 0 with one unknown-code log entry for a code
    outside the table.  The key is 0 or one of the seven that
    [matrixorbital_probe] declares. *)
Theorem report_key_pairs code w :
  let key := lookup_key translation_table code in
  matrixorbital_report_key code w =
  (tt, set_trace
         (trace w
          ++ (if existsb (fun e => fst e =? code) translation_table
              then [] else [Log (MsgUnknownKeycode code)])
          ++ [Log (MsgReportKey key code); InputReportKey key 1; InputSync;
              InputReportKey key 0; InputSync]) w) /\
  (key = KEY_RESERVED \/ In key (keybit panel)).
Proof. exact (report_key_run code w). Qed.

Lemma report_key_reported code w :
  reported (trace (snd (matrixorbital_report_key code w)))
  = reported (trace w) ++ press_release [lookup_key translation_table code].
Proof.
  destruct (report_key_run code w) as (H & _). rewrite H. cbn [snd trace set_trace].
  rewrite !reported_app.
  destruct (existsb _ _); cbn; rewrite ?app_nil_r; reflexivity.
Qed.

Lemma report_key_sent code w :
  sent (trace (snd (matrixorbital_report_key code w))) = sent (trace w).
Proof.
  destruct (report_key_run code w) as (H & _). rewrite H. cbn [snd trace set_trace].
  rewrite !sent_app.
  destruct (existsb _ _); cbn; rewrite ?app_nil_r; reflexivity.
Qed.

Lemma read_param_sent E cmd w :
  sent (trace (snd (matrixorbital_read_param E cmd w)))
  = sent (trace w) ++ [[0xFE; cmd]].
Proof.
  destruct (read_param_run E cmd w) as (H & _). rewrite H.
  rewrite sent_app. cbn [sent]. rewrite sent_app.
  destruct (_ =? 2); cbn; reflexivity.
Qed.

(** One pass of the poll loop. *)
Lemma poll_pass_effect E w :
  let v := answer_value E (n_recv w) in
  let w' := snd (keypad_poll_pass E w) in
  fst (keypad_poll_pass E w) = continues v /\
  n_recv w' = S (n_recv w) /\
  sent (trace w') = sent (trace w) ++ [[0xFE; MATRIXORBITAL_POLL_KEY_PRESS]] /\
  screen_base w' = screen_base w /\
  reported (trace w') =
    reported (trace w)
    ++ (if 0 <? v then press_release [lookup_key translation_table (Z.land v 0x7F)]
        else []).
Proof.
  intros v w'.
  destruct (read_param_run E MATRIXORBITAL_POLL_KEY_PRESS w)
    as (_ & Hv & _). fold v in Hv.
  destruct (read_param_effect E MATRIXORBITAL_POLL_KEY_PRESS w)
    as (Hn & _ & Hk & _ & Hm).
  pose proof (read_param_sent E MATRIXORBITAL_POLL_KEY_PRESS w) as Hs.
  unfold w', continues.
  destruct (Z.ltb_spec 0 v) as [Hpos | Hnon].
  - rewrite <- Hv in Hpos. rewrite (poll_pass_code E w Hpos), Hv. cbn [fst snd andb].
    destruct (report_key_effect (Z.land v 0x7F)
                (snd (matrixorbital_read_param E MATRIXORBITAL_POLL_KEY_PRESS w)))
      as (Hn2 & _ & Hm2).
    rewrite Hn2, Hm2, report_key_sent, report_key_reported, Hn, Hm, Hs, Hk.
    repeat split; reflexivity.
  - rewrite <- Hv in Hnon. rewrite (poll_pass_idle E w Hnon). cbn [fst snd andb].
    rewrite Hn, Hm, Hs, Hk, app_nil_r. repeat split; reflexivity.
Qed.

(** X15.  A poll tick that ends has read at least once.  What it reports
    is a press directly followed by the release of the same key, for at
    most one key per read, each key being 0 or one of the seven declared;
    it sends the poll command once per read and nothing else, and leaves
    the screen memory alone. *)
Theorem poll_reports_pairs E fuel :
  forall w w',
    matrixorbital_keypad_poll E fuel w = Some w' ->
    exists keys,
      reported (trace w') = reported (trace w) ++ press_release keys /\
      Forall (fun key => key = KEY_RESERVED \/ In key (keybit panel)) keys /\
      (n_recv w < n_recv w')%nat /\
      (length keys <= n_recv w' - n_recv w)%nat /\
      sent (trace w') =
        sent (trace w)
        ++ repeat [0xFE; MATRIXORBITAL_POLL_KEY_PRESS] (n_recv w' - n_recv w) /\
      screen_base w' = screen_base w.
Proof.
  induction fuel as [|fuel IH]; intros w w' Hrun; [discriminate|].
  rewrite keypad_poll_unroll in Hrun.
  destruct (poll_pass_effect E w) as (_ & Hn & Hs & Hm & Hk).
  set (w1 := snd (keypad_poll_pass E w)) in *.
  set (v := answer_value E (n_recv w)) in *.
  set (new := if 0 <? v
              then [lookup_key translation_table (Z.land v 0x7F)] else []).
  assert (Hk' : reported (trace w1) = reported (trace w) ++ press_release new)
    by (rewrite Hk; unfold new; destruct (0 <? v); reflexivity).
  assert (Hnew : Forall (fun key => key = KEY_RESERVED \/ In key (keybit panel)) new).
  { unfold new. destruct (0 <? v); constructor; [|constructor].
    apply (report_key_run (Z.land v 0x7F) w). }
  assert (Hlen : (length new <= 1)%nat) by (unfold new; destruct (0 <? v); simpl; lia).
  destruct (fst (keypad_poll_pass E w)).
  - destruct (IH w1 w' Hrun) as (keys & Hr & Hf & Hlt & Hle & Hsent & Hscr).
    exists (new ++ keys). repeat split.
    + rewrite Hr, Hk'. unfold press_release.
      rewrite flat_map_app, app_assoc. reflexivity.
    + apply Forall_app. split; assumption.
    + lia.
    + rewrite length_app. lia.
    + rewrite Hsent, Hs, <- app_assoc. f_equal.
      replace (n_recv w' - n_recv w)%nat with (S (n_recv w' - n_recv w1)) by lia.
      reflexivity.
    + congruence.
  - injection Hrun as <-. exists new. repeat split.
    + exact Hk'.
    + exact Hnew.
    + lia.
    + lia.
    + rewrite Hs, Hn. replace (S (n_recv w) - n_recv w)%nat with 1%nat by lia.
      reflexivity.
    + exact Hm.
Qed.

Lemma poll_reports_pairs_witness :
  exists w' keys,
    matrixorbital_keypad_poll long_burst_env 9 panel = Some w' /\
    reported (trace w') = press_release keys /\
    (length keys <= n_recv w' - 0)%nat.
Proof.
  destruct (matrixorbital_keypad_poll long_burst_env 9 panel) as [w'|] eqn:Hrun;
    [|vm_compute in Hrun; discriminate].
  destruct (poll_reports_pairs long_burst_env 9 panel w' Hrun)
    as (keys & Hr & _ & _ & Hle & _).
  exists w', keys. repeat split; assumption.
Defined.

(** X16.  When the first [k] answers continue (above 0 with bit 7 set) and
    the next one does not, every tick with more than [k] passes allowed
    ends after exactly [k + 1] reads, with two key reports for each of the
    [k] codes and for the last answer when it is above 0. *)
Theorem poll_terminates E :
  forall (k fuel : nat) (w : world),
    (forall j, (j < k)%nat -> continues (answer_value E (n_recv w + j)) = true) ->
    continues (answer_value E (n_recv w + k)) = false ->
    (k < fuel)%nat ->
    exists w',
      matrixorbital_keypad_poll E fuel w = Some w' /\
      n_recv w' = (n_recv w + k + 1)%nat /\
      length (reported (trace w')) =
        (length (reported (trace w))
         + 2 * (k + if (0 <? answer_value E (n_recv w + k))%Z then 1 else 0))%nat.
Proof.
  induction k as [|k IH]; intros fuel w Hgo Hstop Hfuel;
    (destruct fuel as [|fuel]; [lia|]);
    rewrite keypad_poll_unroll;
    destruct (poll_pass_effect E w) as (Hc & Hn & _ & _ & Hk);
    set (w1 := snd (keypad_poll_pass E w)) in *;
    rewrite Hc.
  - rewrite Nat.add_0_r in Hstop. rewrite Hstop.
    exists w1. split; [reflexivity|]. split; [lia|].
    rewrite Hk, length_app, Nat.add_0_r.
    destruct (0 <? answer_value E (n_recv w)); reflexivity.
  - pose proof (Hgo 0%nat ltac:(lia)) as H0. rewrite Nat.add_0_r in H0.
    rewrite H0.
    destruct (IH fuel w1) as (w' & Hrun & Hrecv & Hlen).
    + intros j Hj. rewrite Hn.
      replace (S (n_recv w) + j)%nat with (n_recv w + S j)%nat by lia.
      apply Hgo. lia.
    + rewrite Hn.
      replace (S (n_recv w) + k)%nat with (n_recv w + S k)%nat by lia.
      exact Hstop.
    + lia.
    + exists w'. split; [exact Hrun|]. split; [lia|].
      rewrite Hlen, Hk, length_app, Hn.
      replace (S (n_recv w) + k)%nat with (n_recv w + S k)%nat by lia.
      unfold continues in H0. apply andb_prop in H0. destruct H0 as (Hpos & _).
      rewrite Hpos. simpl. lia.
Qed.

Lemma poll_terminates_witness :
  exists w',
    matrixorbital_keypad_poll long_burst_env 4 panel = Some w' /\
    n_recv w' = 4%nat /\
    length (reported (trace w')) = 8%nat.
Proof.
  apply (poll_terminates long_burst_env 3 4 panel).
  - intros j Hj.
    destruct j as [|[|[|j]]]; [reflexivity | reflexivity | reflexivity | lia].
  - reflexivity.
  - lia.
Defined.

(** X17.  As long as the device keeps answering above 0 with bit 7 set the
    loop does not end: no number of passes suffices for a device that
    always does. *)
Theorem poll_runs_while_device_continues E :
  forall (fuel : nat) (w : world),
    (forall j, (j < fuel)%nat -> continues (answer_value E (n_recv w + j)) = true) ->
    matrixorbital_keypad_poll E fuel w = None.
Proof.
  induction fuel as [|fuel IH]; intros w Hgo; [reflexivity|].
  rewrite keypad_poll_unroll.
  destruct (poll_pass_effect E w) as (Hc & Hn & _).
  rewrite Hc. pose proof (Hgo 0%nat ltac:(lia)) as H0.
  rewrite Nat.add_0_r in H0. rewrite H0.
  apply IH. intros j Hj. rewrite Hn.
  replace (S (n_recv w) + j)%nat with (n_recv w + S j)%nat by lia.
  apply Hgo. lia.
Qed.

Lemma poll_runs_while_device_continues_witness :
  matrixorbital_keypad_poll stuck_env 1000 panel = None.
Proof.
  apply (poll_runs_while_device_continues stuck_env 1000 panel).
  intros j _. destruct j; reflexivity.
Defined.

(** ** Frames *)

Lemma wire_frame_eq (width height : Z) (vmem : list Z) :
  length vmem = Z.to_nat (u32 (height * width) / 8) ->
  wire_frame width height vmem
  = [0xFE; MATRIXORBITAL_DRAW_BITMAP_DIRECTLY; 0; 0; u8 width; u8 height]
    ++ map reverse_bits_in_byte vmem /\
  Z.of_nat (length (wire_frame width height vmem)) = frame_len width height.
Proof.
  intros Hlen.
  destruct (frame_len_eq width height) as (Hfl & Hn).
  set (n := Z.to_nat (u32 (height * width) / 8)) in *.
  assert (Hnat : Z.to_nat (frame_len width height) = (6 + n)%nat)
    by (rewrite Hfl; unfold n; lia).
  assert (Hw : wire_frame width height vmem
               = [0xFE; MATRIXORBITAL_DRAW_BITMAP_DIRECTLY; 0; 0; u8 width; u8 height]
                 ++ map reverse_bits_in_byte vmem).
  { unfold wire_frame, bitmap_frame. fold n. rewrite Hnat, repeat_app.
    change (repeat 0 6) with [0; 0; 0; 0; 0; 0].
    cbn [app poke].
    rewrite <- (app_nil_r (repeat 0 n)).
    change (254 :: ?a :: 0 :: 0 :: ?b :: ?c :: ?l)
      with ([254; a; 0; 0; b; c] ++ l).
    rewrite copy_reversed_spec by (try reflexivity; lia).
    rewrite app_nil_r. f_equal.
    rewrite <- Hlen,
      <- (map_map (fun k => peek vmem (0 + Z.of_nat k)) reverse_bits_in_byte).
    now rewrite map_peek_seq. }
  split; [exact Hw|].
  rewrite Hw, length_app, length_map, Hlen, Hfl. unfold n. simpl length. lia.
Qed.

(** X5.  For every geometry, with the screen memory of
    [height * width / 8] bytes: the frame is FE 64 00 00, the width and
    the height each cut to a byte, then the bit reversal of every byte of
    the screen memory in order, and its length is the [len] handed to the
    bus. *)
Theorem wire_frame_layout (width height : Z) (vmem : list Z) :
  length vmem = Z.to_nat (u32 (height * width) / 8) ->
  wire_frame width height vmem
  = [0xFE; MATRIXORBITAL_DRAW_BITMAP_DIRECTLY; 0; 0; u8 width; u8 height]
    ++ map reverse_bits_in_byte vmem /\
  Z.of_nat (length (wire_frame width height vmem)) = frame_len width height.
Proof. exact (wire_frame_eq width height vmem). Qed.

Lemma wire_frame_layout_witness :
  wire_frame 16 2 [0x01; 0x80; 0xF0; 0x55]
  = [0xFE; 0x64; 0; 0; 16; 2; 0x80; 0x01; 0x0F; 0xAA].
Proof.
  destruct (wire_frame_layout 16 2 [0x01; 0x80; 0xF0; 0x55] eq_refl) as (H & _).
  rewrite H. reflexivity.
Defined.

Lemma map_reverse_twice (vmem : list Z) :
  Forall is_byte vmem ->
  map reverse_bits_in_byte (map reverse_bits_in_byte vmem) = vmem.
Proof.
  induction 1 as [|b vmem Hb _ IH]; [reflexivity|].
  cbn [map]. rewrite IH. f_equal.
  apply Z.eqb_eq.
  apply (byte_cases (fun b => reverse_bits_in_byte (reverse_bits_in_byte b) =? b));
    [vm_compute; reflexivity | exact Hb].
Qed.

(** X6.  Reversing the bits of the payload of a frame gives the screen
    memory back: the panel gets every byte of the surface, and two
    surfaces with the same frame are the same. *)
Theorem wire_frame_round_trip (width height : Z) (vmem : list Z) :
  length vmem = Z.to_nat (u32 (height * width) / 8) ->
  Forall is_byte vmem ->
  map reverse_bits_in_byte (skipn 6 (wire_frame width height vmem)) = vmem.
Proof.
  intros Hlen Hbytes.
  destruct (wire_frame_eq width height vmem Hlen) as (Hw & _).
  rewrite Hw. cbn [skipn app]. apply map_reverse_twice, Hbytes.
Qed.

Lemma wire_frame_round_trip_witness :
  map reverse_bits_in_byte (skipn 6 (wire_frame 16 2 [0x01; 0x80; 0xF0; 0x55]))
  = [0x01; 0x80; 0xF0; 0x55].
Proof.
  apply (wire_frame_round_trip 16 2 [0x01; 0x80; 0xF0; 0x55] eq_refl).
  repeat constructor; unfold is_byte; lia.
Defined.

(** ** Display update *)

(** X7.  The display update never changes the screen memory, the
    geometry or the declared keys.  When [kzalloc] fails it returns with
    nothing sent and nothing logged; otherwise it makes one transmission,
    the frame of the surface, and logs once when that is not acknowledged
    with its full length. *)
Theorem update_display_outcome E w :
  let w' := snd (matrixorbitalfb_update_display E w) in
  let acked :=
    int (i2c_send_ret E (n_send w))
    =? frame_len (par_width w) (par_height w) in
  trace w' =
    trace w
    ++ (if kzalloc_ok E (n_kzalloc w)
        then I2cMasterSend (frame_of w)
             :: (if acked then [] else [Log MsgCouldntSend])
        else []) /\
  screen_base w' = screen_base w /\
  par_width w' = par_width w /\ par_height w' = par_height w /\
  smem_len w' = smem_len w /\ overrun w' = overrun w /\
  keybit w' = keybit w.
Proof.
  intros w' acked. unfold w'. rewrite update_display_run.
  destruct (kzalloc_ok E (n_kzalloc w)); cbn [snd].
  - destruct (frame_len_eq (par_width w) (par_height w)) as (Hfl & Hn).
    rewrite write_array_run by (rewrite Hfl; lia).
    cbn. fold acked. repeat split; reflexivity.
  - cbn. rewrite app_nil_r. repeat split; reflexivity.
Qed.

(** ** Raw writes *)

Lemma store_block_content (mem bytes : list Z) (off : Z) :
  0 <= off ->
  off + Z.of_nat (length bytes) <= Z.of_nat (length mem) ->
  exists mem',
    store_block mem off bytes = Some mem' /\
    forall k, 0 <= k < Z.of_nat (length bytes) ->
              peek mem' (off + k) = nth (Z.to_nat k) bytes 0.
Proof.
  intros Hoff Hfit. unfold store_block.
  destruct (Z.leb_spec (off + Z.of_nat (length bytes)) (Z.of_nat (length mem)));
    [|lia].
  eexists. split; [reflexivity|].
  intros k Hk. unfold peek.
  rewrite app_nth2 by (rewrite length_firstn; lia).
  rewrite length_firstn, app_nth1 by lia.
  f_equal. lia.
Qed.

Lemma copy_from_user_content (off : Z) (ubuf : list Z) (c : Z) (w : world) :
  0 <= off -> 0 <= c ->
  off + c <= Z.of_nat (length (screen_base w)) ->
  forall k, 0 <= k < Z.min c (Z.of_nat (length ubuf)) ->
    peek (screen_base (snd (copy_from_user off ubuf c w))) (off + k)
    = nth (Z.to_nat k) ubuf 0.
Proof.
  intros Hoff Hc Hfit k Hk. unfold copy_from_user. cbn [snd].
  set (n := Z.min c (Z.of_nat (length ubuf))) in *.
  set (bytes := firstn (Z.to_nat n) ubuf ++ repeat 0 (Z.to_nat (c - n))).
  assert (Hb : Z.of_nat (length bytes) = c).
  { unfold bytes. rewrite length_app, length_firstn, repeat_length. unfold n. lia. }
  destruct (store_block_content (screen_base w) bytes off Hoff) as (mem' & Hs & Hp);
    [lia|].
  rewrite Hs. cbn [screen_base set_screen]. rewrite Hp by lia.
  unfold bytes. rewrite app_nth1 by (rewrite length_firstn; lia).
  rewrite nth_firstn.
  destruct (Nat.ltb_spec (Z.to_nat k) (Z.to_nat n)); [reflexivity | lia].
Qed.

Lemma raw_write_copy E ubuf count ppos w :
  panel_ok w ->
  0 <= ppos <= LLONG_MAX -> 0 <= count <= LLONG_MAX ->
  reaches_update (smem_len w) (RawWrite ubuf count ppos) = true ->
  let c := Z.min count (smem_len w - ppos) in
  let w' := snd (matrixorbitalfb_write E ubuf count ppos w) in
  fst (matrixorbitalfb_write E ubuf count ppos w) = (c, ppos + c) /\
  0 < c /\
  (forall k, 0 <= k < c ->
             peek (screen_base w') (ppos + k) = nth (Z.to_nat k) ubuf 0) /\
  panel_ok w'.
Proof.
  intros (Hlen & Hsz & Hov) Hpos Hcount Hreach c w'.
  unfold w'. rewrite write_run. unfold reaches_update in Hreach.
  unfold LLONG_MAX in *.
  rewrite (ulong_small ppos) in * by lia.
  destruct (Z.ltb_spec (smem_len w) ppos) as [Hpast | Hin]; [discriminate|].
  assert (Hl : 0 <= smem_len w < 2 ^ 32) by lia.
  destruct (clamp_count_fits (smem_len w) ppos count Hl) as (Hc0 & Hfit & Hcut & Hall);
    [lia | unfold LLONG_MAX; lia | unfold LLONG_MAX; lia |].
  set (cc := clamp_count (smem_len w) ppos count) in *. cbv zeta.
  assert (Hcc : cc = c).
  { unfold c. destruct (Z_lt_le_dec (smem_len w) (ppos + count)) as [Ho | Hu].
    - rewrite (Hcut Ho). lia.
    - rewrite (Hall Hu). lia. }
  destruct (Z.eqb_spec cc 0) as [Hz | Hnz]; [discriminate|].
  cbn [negb andb] in Hreach. rewrite Hreach. cbn [negb fst snd].
  apply Z.eqb_eq in Hreach.
  destruct (copy_from_user_inside ppos ubuf cc w) as (Ho & Hm & Hs & _);
    [lia | lia | lia |].
  set (w1 := snd (copy_from_user ppos ubuf cc w)) in *.
  destruct (update_display_effect E w1) as (_ & _ & Hm2 & Ho2 & Hs2 & _).
  rewrite Hm2. split; [|split; [|split]].
  - rewrite !s64_small by lia. rewrite Hcc. reflexivity.
  - lia.
  - intros k Hk. unfold w1.
    apply copy_from_user_content; lia.
  - unfold panel_ok. rewrite Hs2, Hm2, Ho2, Hs, Hm, Ho. auto.
Qed.

(** X8.  A raw write that reaches the display update stores the first
    [c] bytes of the user buffer at [ppos], where [c] is the smaller of
    [count] and the room left; it returns [c], which is above 0, and
    moves the file position by [c]. *)
Theorem raw_write_lands E ubuf count ppos w :
  panel_ok w ->
  0 <= ppos <= LLONG_MAX -> 0 <= count <= LLONG_MAX ->
  reaches_update (smem_len w) (RawWrite ubuf count ppos) = true ->
  let c := Z.min count (smem_len w - ppos) in
  let w' := snd (matrixorbitalfb_write E ubuf count ppos w) in
  fst (matrixorbitalfb_write E ubuf count ppos w) = (c, ppos + c) /\
  0 < c /\
  (forall k, 0 <= k < c ->
             peek (screen_base w') (ppos + k) = nth (Z.to_nat k) ubuf 0) /\
  panel_ok w'.
Proof. exact (raw_write_copy E ubuf count ppos w). Qed.

Lemma raw_write_lands_witness :
  fst (matrixorbitalfb_write drawing_env [7; 8; 9] 3 1534 panel) = (2, 1536) /\
  peek (screen_base (snd (matrixorbitalfb_write drawing_env [7; 8; 9] 3 1534 panel)))
       1535 = 8.
Proof.
  assert (Hok : panel_ok panel) by (repeat split; reflexivity).
  assert (H1 : 0 <= 1534 <= LLONG_MAX) by (unfold LLONG_MAX; lia).
  assert (H2 : 0 <= 3 <= LLONG_MAX) by (unfold LLONG_MAX; lia).
  destruct (raw_write_lands drawing_env [7; 8; 9] 3 1534 panel Hok H1 H2 eq_refl)
    as (Hr & _ & Hp & _).
  split; [exact Hr|].
  apply (Hp 1). simpl. lia.
Defined.

(** X10.  When the user buffer cannot be read to the end of the count, a
    raw write returns -EFAULT and leaves the file position; the bytes
    that could be read are in the screen memory all the same, and nothing
    is sent to the panel. *)
Theorem raw_write_fault_leaves_display_stale E ubuf count ppos w :
  panel_ok w ->
  0 <= ppos < smem_len w -> 0 < count <= LLONG_MAX ->
  Z.of_nat (length ubuf) < Z.min count (smem_len w - ppos) ->
  let w' := snd (matrixorbitalfb_write E ubuf count ppos w) in
  fst (matrixorbitalfb_write E ubuf count ppos w) = (- EFAULT, ppos) /\
  trace w' = trace w /\
  (forall k, 0 <= k < Z.of_nat (length ubuf) ->
             peek (screen_base w') (ppos + k) = nth (Z.to_nat k) ubuf 0) /\
  panel_ok w'.
Proof.
  intros (Hlen & Hsz & Hov) Hpos Hcount Hshort w'.
  unfold w'. rewrite write_run. unfold LLONG_MAX in *.
  rewrite (ulong_small ppos) by lia.
  destruct (Z.ltb_spec (smem_len w) ppos) as [Hpast | Hin]; [lia|].
  assert (Hl : 0 <= smem_len w < 2 ^ 32) by lia.
  destruct (clamp_count_fits (smem_len w) ppos count Hl) as (Hc0 & Hfit & Hcut & Hall);
    [lia | unfold LLONG_MAX; lia | unfold LLONG_MAX; lia |].
  set (cc := clamp_count (smem_len w) ppos count) in *. cbv zeta.
  assert (Hcc : cc = Z.min count (smem_len w - ppos)).
  { destruct (Z_lt_le_dec (smem_len w) (ppos + count)) as [Ho | Hu].
    - rewrite (Hcut Ho). lia.
    - rewrite (Hall Hu). lia. }
  destruct (Z.eqb_spec cc 0) as [Hz | Hnz]; [lia|].
  destruct (Z.eqb_spec (cc - Z.min cc (Z.of_nat (length ubuf))) 0) as [He | Hne];
    [lia|].
  cbn [negb fst snd].
  destruct (copy_from_user_inside ppos ubuf cc w) as (Ho & Hm & Hs & _);
    [lia | lia | lia |].
  destruct (copy_from_user_frame ppos ubuf cc w) as (Ht & _).
  split; [reflexivity|]. split; [exact Ht|]. split.
  - intros k Hk. apply copy_from_user_content; lia.
  - unfold panel_ok. rewrite Hs, Hm, Ho. auto.
Qed.

Lemma raw_write_fault_leaves_display_stale_witness :
  fst (matrixorbitalfb_write drawing_env [7] 3 10 panel) = (- EFAULT, 10) /\
  trace (snd (matrixorbitalfb_write drawing_env [7] 3 10 panel)) = [] /\
  peek (screen_base (snd (matrixorbitalfb_write drawing_env [7] 3 10 panel))) 10 = 7.
Proof.
  assert (Hok : panel_ok panel) by (repeat split; reflexivity).
  assert (H1 : 0 <= 10 < smem_len panel) by (simpl; lia).
  assert (H2 : 0 < 3 <= LLONG_MAX) by (unfold LLONG_MAX; lia).
  assert (H3 : Z.of_nat (length [7]) < Z.min 3 (smem_len panel - 10))
    by (simpl; lia).
  destruct (raw_write_fault_leaves_display_stale drawing_env [7] 3 10 panel
              Hok H1 H2 H3) as (Hr & Ht & Hp & _).
  split; [exact Hr|]. split; [exact Ht|].
  apply (Hp 0). simpl. lia.
Defined.

(** X11.  A raw write at the end of the buffer or beyond it, or of no
    bytes, returns -EINVAL and changes nothing, the file position
    included. *)
Theorem raw_write_at_end_is_invalid E ubuf count ppos w :
  panel_ok w ->
  0 <= ppos <= LLONG_MAX -> 0 <= count <= LLONG_MAX ->
  smem_len w <= ppos \/ count = 0 ->
  matrixorbitalfb_write E ubuf count ppos w = (- EINVAL, ppos, w).
Proof.
  intros (Hlen & Hsz & Hov) Hpos Hcount Hend.
  rewrite write_run. unfold LLONG_MAX in *.
  rewrite (ulong_small ppos) by lia.
  destruct (Z.ltb_spec (smem_len w) ppos) as [Hpast | Hin]; [reflexivity|].
  assert (Hl : 0 <= smem_len w < 2 ^ 32) by lia.
  destruct (clamp_count_fits (smem_len w) ppos count Hl) as (Hc0 & Hfit & Hcut & Hall);
    [lia | unfold LLONG_MAX; lia | unfold LLONG_MAX; lia |].
  set (cc := clamp_count (smem_len w) ppos count) in *. cbv zeta.
  assert (Hz : cc = 0).
  { destruct Hend as [He | He].
    - lia.
    - destruct (Z_lt_le_dec (smem_len w) (ppos + count)) as [Ho | Hu].
      + rewrite (Hcut Ho). lia.
      + rewrite (Hall Hu). lia. }
  rewrite Hz. reflexivity.
Qed.

Lemma raw_write_at_end_is_invalid_witness :
  matrixorbitalfb_write drawing_env [1; 2] 2 1536 panel = (- EINVAL, 1536, panel).
Proof.
  assert (Hok : panel_ok panel) by (repeat split; reflexivity).
  assert (H1 : 0 <= 1536 <= LLONG_MAX) by (unfold LLONG_MAX; lia).
  assert (H2 : 0 <= 2 <= LLONG_MAX) by (unfold LLONG_MAX; lia).
  apply (raw_write_at_end_is_invalid drawing_env [1; 2] 2 1536 panel Hok H1 H2).
  left. simpl. lia.
Defined.

Lemma raw_write_keeps E ubuf count ppos w :
  smem_len w = Z.of_nat (length (screen_base w)) ->
  smem_len w < 2 ^ 32 ->
  0 <= ppos <= LLONG_MAX ->
  0 <= count <= LLONG_MAX ->
  let w' := snd (matrixorbitalfb_write E ubuf count ppos w) in
  overrun w' = overrun w /\
  length (screen_base w') = length (screen_base w) /\
  smem_len w' = smem_len w /\
  (forall i, 0 <= i < ppos \/ Z.min (ppos + count) (smem_len w) <= i ->
             peek (screen_base w') i = peek (screen_base w) i).
Proof.
  intros Hlen Hsz Hpos Hcount w'.
  unfold w'. rewrite write_run. unfold LLONG_MAX in *.
  rewrite (ulong_small ppos) by lia.
  destruct (Z.ltb_spec (smem_len w) ppos) as [Hpast | Hin]; cbn [snd]; [auto|].
  assert (Hl : 0 <= smem_len w < 2 ^ 32) by lia.
  destruct (clamp_count_fits (smem_len w) ppos count Hl) as (Hc0 & Hfit & Hcut & Hall);
    [lia | unfold LLONG_MAX; lia | unfold LLONG_MAX; lia |].
  set (c := clamp_count (smem_len w) ppos count) in *. cbv zeta.
  destruct (Z.eqb_spec c 0) as [Hzero | Hnz]; cbn [snd]; [auto|].
  destruct (copy_from_user_inside ppos ubuf c w) as (Ho & Hm & Hs & Hp);
    [lia | lia | lia |].
  set (w1 := snd (copy_from_user ppos ubuf c w)) in *.
  assert (Hout : forall i, 0 <= i < ppos \/ Z.min (ppos + count) (smem_len w) <= i ->
                           peek (screen_base w1) i = peek (screen_base w) i).
  { intros i Hi. apply Hp.
    destruct (Z_lt_le_dec (smem_len w) (ppos + count)) as [Hover | Hunder].
    - rewrite (Hcut Hover). lia.
    - rewrite (Hall Hunder). lia. }
  destruct (negb _); cbn [snd]; [auto|].
  destruct (update_display_effect E w1) as (_ & _ & Hm2 & Ho2 & Hs2 & _).
  rewrite Hm2, Ho2, Hs2. auto.
Qed.

(** X9.  On the 192 x 64 panel a raw write that reaches the display update
    is followed by one frame in which the bytes written appear bit
    reversed at offset 6 + position, and every byte before and after them
    is the bit reversal of what the screen memory held before. *)
Theorem raw_write_reaches_the_wire E ubuf count ppos w :
  par_width w = 192 -> par_height w = 64 ->
  panel_ok w -> smem_len w = 1536 ->
  0 <= ppos <= LLONG_MAX -> 0 <= count <= LLONG_MAX ->
  reaches_update (smem_len w) (RawWrite ubuf count ppos) = true ->
  kzalloc_ok E (n_kzalloc w) = true ->
  let w' := snd (matrixorbitalfb_write E ubuf count ppos w) in
  exists frame,
    sent (trace w') = sent (trace w) ++ [frame] /\
    firstn 6 frame = header_192x64 /\
    (forall k, 0 <= k < Z.min count (1536 - ppos) ->
       nth (6 + Z.to_nat (ppos + k)) frame 0
       = reverse_bits_in_byte (nth (Z.to_nat k) ubuf 0)) /\
    (forall i, 0 <= i < ppos \/ Z.min (ppos + count) 1536 <= i < 1536 ->
       nth (6 + Z.to_nat i) frame 0
       = reverse_bits_in_byte (peek (screen_base w) i)).
Proof.
  intros Hw Hh Hok Hsm Hpos Hcount Hreach Hk w'.
  destruct (raw_write_copy E ubuf count ppos w Hok Hpos Hcount Hreach)
    as (_ & Hc & Hland & _).
  destruct Hok as (Hlen & Hsz & Hov).
  destruct (raw_write_keeps E ubuf count ppos w Hlen Hsz Hpos Hcount)
    as (_ & Hl' & _ & Hout).
  fold w' in Hland, Hl', Hout. rewrite Hsm in *.
  assert (Hl : length (screen_base w') = 1536%nat) by lia.
  unfold w'. rewrite write_run.
  unfold reaches_update in Hreach. rewrite Hsm.
  destruct (1536 <? ulong ppos) eqn:Hp; [discriminate|]. cbv zeta.
  destruct (clamp_count 1536 (ulong ppos) count =? 0) eqn:Hz; [discriminate|].
  cbn [negb andb] in Hreach. rewrite Hreach. cbn [negb snd].
  set (w1 := snd (copy_from_user (ulong ppos) ubuf
                    (clamp_count 1536 (ulong ppos) count) w)).
  assert (Hw' : w' = snd (matrixorbitalfb_update_display E w1)).
  { unfold w'. rewrite write_run, Hsm, Hp. cbv zeta. rewrite Hz, Hreach.
    reflexivity. }
  destruct (copy_from_user_frame (ulong ppos) ubuf
              (clamp_count 1536 (ulong ppos) count) w)
    as (Ht & _ & Hw1 & Hh1 & Hk1).
  fold w1 in Ht, Hw1, Hh1, Hk1.
  destruct (update_display_effect E w1) as (Hs & _ & Hm & _).
  rewrite <- Hw' in Hm.
  assert (Hl1 : length (screen_base w1) = 1536%nat) by (rewrite <- Hm; exact Hl).
  exists (header_192x64 ++ map reverse_bits_in_byte (screen_base w1)).
  split; [|split; [reflexivity|]].
  - rewrite Hs, Hk1, Hk, Ht. unfold frame_of. rewrite Hw1, Hh1, Hw, Hh.
    rewrite (firstn_frame_192x64 _ Hl1), (wire_frame_192x64 _ Hl1). reflexivity.
  - assert (Hnth : forall i, 0 <= i < 1536 ->
              nth (6 + Z.to_nat i)
                  (header_192x64 ++ map reverse_bits_in_byte (screen_base w1)) 0
              = reverse_bits_in_byte (peek (screen_base w') i)).
    { intros i Hi. rewrite app_nth2 by (simpl; lia).
      replace (6 + Z.to_nat i - length header_192x64)%nat with (Z.to_nat i)
        by (simpl; lia).
      rewrite (nth_indep _ 0 (reverse_bits_in_byte 0)) by (rewrite length_map; lia).
      rewrite map_nth, Hm. reflexivity. }
    split.
    + intros k Hkk. rewrite Hnth by lia. f_equal. apply Hland. lia.
    + intros i Hi. rewrite Hnth by lia. f_equal. apply Hout. lia.
Qed.

Lemma raw_write_reaches_the_wire_witness :
  exists frame,
    sent (trace (snd (matrixorbitalfb_write drawing_env [1; 2; 3] 3 0 panel)))
    = [frame] /\
    nth 7 frame 0 = 0x40.
Proof.
  assert (Hok : panel_ok panel) by (repeat split; reflexivity).
  assert (H1 : 0 <= 0 <= LLONG_MAX) by (unfold LLONG_MAX; lia).
  assert (H2 : 0 <= 3 <= LLONG_MAX) by (unfold LLONG_MAX; lia).
  destruct (raw_write_reaches_the_wire drawing_env [1; 2; 3] 3 0 panel
              eq_refl eq_refl Hok eq_refl H1 H2 eq_refl eq_refl)
    as (frame & Hs & _ & Hd & _).
  exists frame. split; [exact Hs|].
  apply (Hd 1). simpl. lia.
Defined.

(** ** Sequences of drawing calls *)

Lemma draw_keeps E op w :
  let w' := snd (draw E op w) in
  par_width w' = par_width w /\ par_height w' = par_height w /\
  smem_len w' = smem_len w /\
  reported (trace w') = reported (trace w) /\
  (length (sent (trace w')) <= S (length (sent (trace w))))%nat.
Proof.
  assert (Hupd : forall w0,
    let w' := snd (matrixorbitalfb_update_display E w0) in
    par_width w' = par_width w0 /\ par_height w' = par_height w0 /\
    smem_len w' = smem_len w0 /\
    reported (trace w') = reported (trace w0) /\
    (length (sent (trace w')) <= S (length (sent (trace w0))))%nat).
  { intros w0. destruct (update_display_effect E w0)
      as (Hs & Hk & _ & _ & Hl & Hw & Hh & _).
    repeat split; try assumption.
    rewrite Hs, length_app. destruct (kzalloc_ok E _); simpl; lia. }
  destruct op as [ubuf count ppos | rect | area | image]; unfold draw;
    [ | unfold matrixorbitalfb_fillrect
      | unfold matrixorbitalfb_copyarea
      | unfold matrixorbitalfb_imageblit ];
    try (unfold bind, modify; apply (Hupd (set_screen _ w))).
  assert (Hsnd : snd ((matrixorbitalfb_write E ubuf count ppos ;; ret tt) w)
                 = snd (matrixorbitalfb_write E ubuf count ppos w))
    by (unfold bind, ret; destruct (matrixorbitalfb_write E ubuf count ppos w);
        reflexivity).
  rewrite Hsnd. clear Hsnd. rewrite write_run.
  destruct (smem_len w <? ulong ppos); cbn [snd]; [repeat split; lia|].
  cbv zeta.
  destruct (clamp_count (smem_len w) (ulong ppos) count =? 0); cbn [snd];
    [repeat split; lia|].
  destruct (copy_from_user_frame (ulong ppos) ubuf
              (clamp_count (smem_len w) (ulong ppos) count) w)
    as (Ht & Hl & Hw & Hh & _).
  destruct (negb _); cbn [snd].
  - rewrite Ht, Hl, Hw, Hh. repeat split; lia.
  - destruct (Hupd (snd (copy_from_user (ulong ppos) ubuf
                           (clamp_count (smem_len w) (ulong ppos) count) w)))
      as (Hw2 & Hh2 & Hl2 & Hk2 & Hs2).
    rewrite Hw2, Hh2, Hl2, Hk2, Hw, Hh, Hl, Ht. rewrite Ht in Hs2.
    repeat split; assumption.
Qed.

(** X12.  Whatever the bus and the allocator answer, a sequence of drawing
    calls makes at most one transmission per call, reports no key, and
    leaves the geometry and [smem_len] as they were. *)
Theorem draw_all_sends_at_most_one_frame_each E ops :
  forall w,
    let w' := snd (draw_all E ops w) in
    (length (sent (trace w')) <= length (sent (trace w)) + length ops)%nat /\
    reported (trace w') = reported (trace w) /\
    par_width w' = par_width w /\ par_height w' = par_height w /\
    smem_len w' = smem_len w.
Proof.
  induction ops as [|op ops IH]; intros w.
  - simpl. repeat split; lia.
  - cbv zeta. rewrite draw_all_cons.
    destruct (IH (snd (draw E op w))) as (Hs & Hk & Hw & Hh & Hl).
    destruct (draw_keeps E op w) as (Hw1 & Hh1 & Hl1 & Hk1 & Hs1).
    rewrite Hk, Hw, Hh, Hl, Hk1, Hw1, Hh1, Hl1. simpl length.
    repeat split; lia.
Qed.

Lemma draw_keeps_panel_ok E op w :
  panel_ok w -> helpers_keep_length E -> op_in_range op ->
  panel_ok (snd (draw E op w)) /\
  length (screen_base (snd (draw E op w))) = length (screen_base w).
Proof.
  intros (Hlen & Hsz & Hov) (Hfill & Hcopy & Hblit) Hop.
  assert (Hupd : forall w0 vmem,
    length vmem = length (screen_base w) ->
    smem_len w0 = smem_len w -> overrun w0 = overrun w ->
    panel_ok (snd (matrixorbitalfb_update_display E (set_screen vmem w0))) /\
    length (screen_base (snd (matrixorbitalfb_update_display E (set_screen vmem w0))))
    = length (screen_base w)).
  { intros w0 vmem Hv Hs0 Ho0.
    destruct (update_display_effect E (set_screen vmem w0))
      as (_ & _ & Hm & Ho & Hl & _).
    unfold panel_ok. rewrite Hm, Ho, Hl. cbn. rewrite Hv, Hs0, Ho0. auto. }
  destruct op as [ubuf count ppos | rect | area | image]; unfold draw;
    [ | unfold matrixorbitalfb_fillrect, bind, modify; apply Hupd; auto
      | unfold matrixorbitalfb_copyarea, bind, modify; apply Hupd; auto
      | unfold matrixorbitalfb_imageblit, bind, modify; apply Hupd; auto ].
  assert (Hsnd : snd ((matrixorbitalfb_write E ubuf count ppos ;; ret tt) w)
                 = snd (matrixorbitalfb_write E ubuf count ppos w))
    by (unfold bind, ret; destruct (matrixorbitalfb_write E ubuf count ppos w);
        reflexivity).
  rewrite Hsnd. clear Hsnd. destruct Hop as (Hpos & Hcount).
  destruct (raw_write_keeps E ubuf count ppos w Hlen Hsz Hpos Hcount)
    as (Ho & Hl & Hs & _).
  unfold panel_ok. rewrite Ho, Hl, Hs. auto.
Qed.

(** X13.  When the generic helpers keep the length of the screen memory
    and the raw writes come with positions and counts in the non-negative
    range of their types, every sequence of drawing calls keeps [smem_len]
    equal to the size of the screen memory, stores nothing past its end
    and leaves its length. *)
Theorem drawing_keeps_panel_ok E ops :
  forall w,
    panel_ok w -> helpers_keep_length E -> Forall op_in_range ops ->
    panel_ok (snd (draw_all E ops w)) /\
    length (screen_base (snd (draw_all E ops w))) = length (screen_base w).
Proof.
  induction ops as [|op ops IH]; intros w Hok Hhelp Hops.
  - simpl. auto.
  - rewrite draw_all_cons. inversion Hops as [|? ? Hop Hrest]; subst.
    destruct (draw_keeps_panel_ok E op w Hok Hhelp Hop) as (Hok1 & Hl1).
    destruct (IH (snd (draw E op w)) Hok1 Hhelp Hrest) as (Hok2 & Hl2).
    split; [exact Hok2 | congruence].
Qed.

Lemma drawing_keeps_panel_ok_witness :
  panel_ok (snd (draw_all drawing_env
                   [FillRect white; RawWrite [1; 2; 3] 3 1535; FillRect black]
                   panel)) /\
  length (screen_base (snd (draw_all drawing_env
                   [FillRect white; RawWrite [1; 2; 3] 3 1535; FillRect black]
                   panel))) = 1536%nat.
Proof.
  apply (drawing_keeps_panel_ok drawing_env
           [FillRect white; RawWrite [1; 2; 3] 3 1535; FillRect black] panel).
  - repeat split; reflexivity.
  - repeat split; intros; try reflexivity. apply length_map.
  - repeat constructor; unfold LLONG_MAX; lia.
Defined.

(** ** Bring-up and teardown *)

Lemma init_keeps E w :
  let w' := snd (matrixorbital_init E w) in
  keybit w' = keybit w /\ overrun w' = overrun w /\ n_kzalloc w' = n_kzalloc w /\
  defio_delay w' = defio_delay w.
Proof.
  unfold matrixorbital_init. unfold_commands. unfold_monad. simpl.
  split_branches; auto.
Qed.

Ltac run_probe E :=
  unfold matrixorbital_probe, panel_init_error, fb_alloc_error, err_free_dev,
    call_service, dev_err;
  unfold_monad.

(** X18.  When one of the three allocations at the start of
    [matrixorbital_probe] fails, it returns -ENOMEM without touching the
    bus; the frame buffer structure is released when it had been
    allocated. *)
Theorem probe_stops_on_allocation_failure E :
  framebuffer_alloc_ok E && get_free_pages_ok E && devm_kzalloc_ok E = false ->
  let w' := snd (matrixorbital_probe E boot) in
  fst (matrixorbital_probe E boot) = Some (- ENOMEM) /\
  sent (trace w') = [] /\
  n_recv w' = 0%nat /\
  services (trace w') =
    (if negb (framebuffer_alloc_ok E) then [FramebufferAlloc]
     else if negb (get_free_pages_ok E)
          then [FramebufferAlloc; GetFreePages; FramebufferRelease]
          else [FramebufferAlloc; GetFreePages; DevmKzalloc; FramebufferRelease]).
Proof.
  intros Hfail. run_probe E.
  destruct (framebuffer_alloc_ok E); cbn [negb andb] in *;
    [|cbn; auto].
  destruct (get_free_pages_ok E); cbn [negb andb] in *;
    [|cbn; auto].
  rewrite Hfail. cbn. auto.
Qed.

Lemma probe_stops_on_allocation_failure_witness :
  fst (matrixorbital_probe
         (with_bring_up true false true 0 true 0 healthy_env) boot)
  = Some (- ENOMEM) /\
  services (trace (snd (matrixorbital_probe
         (with_bring_up true false true 0 true 0 healthy_env) boot)))
  = [FramebufferAlloc; GetFreePages; FramebufferRelease].
Proof.
  destruct (probe_stops_on_allocation_failure
              (with_bring_up true false true 0 true 0 healthy_env) eq_refl)
    as (Hr & _ & _ & Hs).
  split; [exact Hr | exact Hs].
Defined.

Lemma probe_paths E :
  framebuffer_alloc_ok E = true ->
  get_free_pages_ok E = true ->
  devm_kzalloc_ok E = true ->
  u32 (refreshrate E) <> 0 ->
  int (i2c_send_ret E 3) = 2 ->
  let reg := int (register_framebuffer_ret E) in
  let inreg := int (input_register_ret E) in
  let w' := snd (matrixorbital_probe E boot) in
  fst (matrixorbital_probe E boot) =
    Some (if negb (reg =? 0) then reg
          else if negb (input_allocate_ok E) then - ENOMEM
               else inreg) /\
  services (trace w') =
    [FramebufferAlloc; GetFreePages; DevmKzalloc; FbDeferredIoInit;
     I2cSetClientdata; RegisterFramebuffer]
    ++ (if negb (reg =? 0) then [FbDeferredIoCleanup; FramebufferRelease]
        else DevmInputAllocatePolledDevice
             :: (if negb (input_allocate_ok E) then []
                 else InputRegisterPolledDevice
                      :: (if negb (inreg =? 0)
                          then [InputFreePolledDevice; FbDeferredIoCleanup;
                                FramebufferRelease]
                          else []))) /\
  par_width w' = 192 /\ par_height w' = 64 /\ smem_len w' = 1536 /\
  screen_base w' = repeat 0 1536 /\ overrun w' = false /\
  keybit w' =
    (if negb (reg =? 0) || negb (input_allocate_ok E) then []
     else [KEY_ESC; KEY_BACKSPACE; KEY_ENTER; KEY_UP; KEY_LEFT; KEY_RIGHT;
           KEY_DOWN]) /\
  defio_delay w' = u32 (HZ E) / u32 (refreshrate E) /\
  sent (trace w') =
    [[0xFE; MATRIXORBITAL_TX_PROTOCOL_SELECT; 0];
     [0xFE; MATRIXORBITAL_READ_MODULE_TYPE];
     [0xFE; MATRIXORBITAL_AUTO_TX_KEY_PRESS_OFF];
     [0xFE; MATRIXORBITAL_CLEAR_SCREEN]].
Proof.
  intros Ha Hb Hc Hrate Hack reg inreg. apply Z.eqb_neq in Hrate.
  pose proof (init_effect E (probed E)) as (Hs & Hw & Hh & Hl & Hm).
  pose proof (init_keeps E (probed E)) as (Hk & Ho & _ & Hd).
  destruct (init_answered E (probed E)) as (new & Htn & _ & Hsn).
  assert (Hsent : sent (trace (snd (matrixorbital_init E (probed E)))) = sent new)
    by (rewrite Htn, sent_app; reflexivity).
  rewrite Hsn in Hsent. clear new Htn Hsn.
  pose proof (init_result E (probed E)) as Hr.
  change (3 + n_send (probed E))%nat with 3%nat in Hr. rewrite Hack in Hr.
  change (2 =? 2) with true in Hr. cbv iota in Hr.
  remember (matrixorbital_init E (probed E)) as res eqn:Hres.
  run_probe E. rewrite Ha, Hb, Hc. cbn [negb]. rewrite Hrate.
  match goal with
  | |- context [matrixorbital_init E ?x] => change x with (probed E)
  end.
  rewrite <- Hres. clear Hres.
  destruct res as [r w1]. cbn [fst snd] in *. subst r.
  change (negb (0 =? 0)) with false. cbv iota. fold reg inreg.
  destruct (reg =? 0); cbn [negb orb];
    [destruct (input_allocate_ok E); cbn [negb orb];
      [destruct (Z.eqb_spec inreg 0) as [Hi | Hi]; cbn [negb]|]|];
    cbn; rewrite ?services_app, ?sent_app, ?Hs, ?Hsent; cbn;
    rewrite ?Hw, ?Hh, ?Hl, ?Hm, ?Hk, ?Ho, ?Hd;
    repeat split; try reflexivity; rewrite Hi; reflexivity.
Qed.

(** X19.  With a refresh rate other than 0 and after a successful
    [matrixorbital_init] the probe registers the frame buffer.  A failed
    registration is returned after cleanup and release; a failed
    allocation of the input device gives -ENOMEM; a failed registration
    of the input device is returned after freeing it, cleanup and
    release; otherwise the probe returns what the last registration
    returned, 0. *)
Theorem probe_paths_after_init E :
  framebuffer_alloc_ok E = true ->
  get_free_pages_ok E = true ->
  devm_kzalloc_ok E = true ->
  u32 (refreshrate E) <> 0 ->
  int (i2c_send_ret E 3) = 2 ->
  let reg := int (register_framebuffer_ret E) in
  let inreg := int (input_register_ret E) in
  fst (matrixorbital_probe E boot) =
    Some (if negb (reg =? 0) then reg
          else if negb (input_allocate_ok E) then - ENOMEM
               else inreg) /\
  services (trace (snd (matrixorbital_probe E boot))) =
    [FramebufferAlloc; GetFreePages; DevmKzalloc; FbDeferredIoInit;
     I2cSetClientdata; RegisterFramebuffer]
    ++ (if negb (reg =? 0) then [FbDeferredIoCleanup; FramebufferRelease]
        else DevmInputAllocatePolledDevice
             :: (if negb (input_allocate_ok E) then []
                 else InputRegisterPolledDevice
                      :: (if negb (inreg =? 0)
                          then [InputFreePolledDevice; FbDeferredIoCleanup;
                                FramebufferRelease]
                          else []))).
Proof.
  intros Ha Hb Hc Hrate Hack reg inreg.
  destruct (probe_paths E Ha Hb Hc Hrate Hack) as (Hr & Hs & _).
  split; [exact Hr | exact Hs].
Qed.

Lemma probe_paths_after_init_witness :
  fst (matrixorbital_probe
         (with_bring_up true true true 0 true (-16) healthy_env) boot)
  = Some (-16) /\
  services (trace (snd (matrixorbital_probe
         (with_bring_up true true true 0 true (-16) healthy_env) boot)))
  = [FramebufferAlloc; GetFreePages; DevmKzalloc; FbDeferredIoInit;
     I2cSetClientdata; RegisterFramebuffer; DevmInputAllocatePolledDevice;
     InputRegisterPolledDevice; InputFreePolledDevice; FbDeferredIoCleanup;
     FramebufferRelease].
Proof.
  assert (Hrate : u32 (refreshrate
                         (with_bring_up true true true 0 true (-16) healthy_env))
                  <> 0) by (vm_compute; discriminate).
  exact (probe_paths_after_init
           (with_bring_up true true true 0 true (-16) healthy_env)
           eq_refl eq_refl eq_refl Hrate eq_refl).
Defined.

(** X20.  A probe with a refresh rate other than 0 in which every step
    succeeds returns 0 and leaves the 192 x 64 geometry, [smem_len] of
    192 * 64 / 8 equal to the size of the zeroed screen memory, the
    deferred-I/O delay of [HZ / refreshrate] jiffies, and the seven keys
    declared. *)
Theorem probe_success_state E :
  framebuffer_alloc_ok E = true ->
  get_free_pages_ok E = true ->
  devm_kzalloc_ok E = true ->
  u32 (refreshrate E) <> 0 ->
  int (i2c_send_ret E 3) = 2 ->
  int (register_framebuffer_ret E) = 0 ->
  input_allocate_ok E = true ->
  int (input_register_ret E) = 0 ->
  let w' := snd (matrixorbital_probe E boot) in
  fst (matrixorbital_probe E boot) = Some 0 /\
  panel_ok w' /\
  par_width w' = par_width panel /\ par_height w' = par_height panel /\
  smem_len w' = par_width w' * par_height w' / 8 /\
  screen_base w' = screen_base panel /\
  keybit w' = keybit panel /\
  defio_delay w' = u32 (HZ E) / u32 (refreshrate E).
Proof.
  intros Ha Hb Hc Hrate Hack Hreg Hin Hinreg.
  destruct (probe_paths E Ha Hb Hc Hrate Hack)
    as (Hr & _ & Hw & Hh & Hl & Hm & Ho & Hk & Hd & _).
  rewrite Hreg, Hin, Hinreg in *.
  change (0 =? 0) with true in *. cbn [negb orb] in Hr, Hk.
  cbv zeta. rewrite Hr, Hw, Hh, Hl, Hm, Hk, Hd. unfold panel_ok.
  rewrite Hl, Hm, Ho. repeat split; reflexivity.
Qed.

Lemma probe_success_state_witness :
  fst (matrixorbital_probe healthy_env boot) = Some 0 /\
  panel_ok (snd (matrixorbital_probe healthy_env boot)) /\
  defio_delay (snd (matrixorbital_probe healthy_env boot)) = 20.
Proof.
  assert (Hrate : u32 (refreshrate healthy_env) <> 0)
    by (vm_compute; discriminate).
  destruct (probe_success_state healthy_env
              eq_refl eq_refl eq_refl Hrate eq_refl eq_refl eq_refl eq_refl)
    as (Hr & Hok & _ & _ & _ & _ & _ & Hd).
  split; [exact Hr|]. split; [exact Hok | exact Hd].
Defined.

(** X21.  When the input device cannot be allocated (refresh rate other
    than 0, everything before succeeding) the probe returns -ENOMEM
    directly: the frame buffer stays registered, the deferred I/O is not
    cleaned up and the frame buffer structure is not released. *)
Theorem probe_keeps_frame_buffer_when_input_allocation_fails E :
  framebuffer_alloc_ok E = true ->
  get_free_pages_ok E = true ->
  devm_kzalloc_ok E = true ->
  u32 (refreshrate E) <> 0 ->
  int (i2c_send_ret E 3) = 2 ->
  int (register_framebuffer_ret E) = 0 ->
  input_allocate_ok E = false ->
  let called := services (trace (snd (matrixorbital_probe E boot))) in
  fst (matrixorbital_probe E boot) = Some (- ENOMEM) /\
  In RegisterFramebuffer called /\
  ~ In FbDeferredIoCleanup called /\
  ~ In FramebufferRelease called.
Proof.
  intros Ha Hb Hc Hrate Hack Hreg Hin.
  destruct (probe_paths E Ha Hb Hc Hrate Hack) as (Hr & Hs & _).
  rewrite Hreg, Hin in *.
  change (0 =? 0) with true in *. cbn [negb] in Hr, Hs.
  cbv zeta. rewrite Hr, Hs. split; [reflexivity|].
  simpl. intuition discriminate.
Qed.

Lemma probe_keeps_frame_buffer_when_input_allocation_fails_witness :
  fst (matrixorbital_probe
         (with_bring_up true true true 0 false 0 healthy_env) boot)
  = Some (- ENOMEM) /\
  In RegisterFramebuffer
     (services (trace (snd (matrixorbital_probe
         (with_bring_up true true true 0 false 0 healthy_env) boot)))).
Proof.
  assert (Hrate : u32 (refreshrate
                         (with_bring_up true true true 0 false 0 healthy_env))
                  <> 0) by (vm_compute; discriminate).
  destruct (probe_keeps_frame_buffer_when_input_allocation_fails
              (with_bring_up true true true 0 false 0 healthy_env)
              eq_refl eq_refl eq_refl Hrate eq_refl eq_refl eq_refl)
    as (Hr & Hreg & _).
  split; [exact Hr | exact Hreg].
Defined.






Lemma reverse_bits_in_byte_testbit_witness :
  Z.testbit (reverse_bits_in_byte 0x01) 7 = true.
Proof.
  assert (Hb : 0 <= 0x01 < 256) by lia.
  assert (Hi : 0 <= 7 < 8) by lia.
  rewrite (reverse_bits_in_byte_testbit 0x01 7 Hb Hi). reflexivity.
Defined.
